(** * Repository Intelligence: the analyzer facade and its callers

    A shallow embedding of [src/core/analyzer.py] (class
    [RepositoryAnalyzer]), of the [analyze] command of [cli/analyze.py] and
    of the [/health] endpoint of [src/api/main.py].

    Python values are an inductive type, floats are IEEE binary64 (Rocq's
    primitive floats, so literals such as [0.7] denote the same double as in
    Python), dictionaries are finite maps with string keys, exceptions are
    an error type, and the methods of the class run in a state-and-error
    monad over the instance dictionary of [self]. *)

From Stdlib Require Import Floats.PrimFloat.
From stdpp Require Import base strings list gmap.

#[local] Set Warnings "-inexact-float,-register-all".
#[local] Open Scope string_scope.

(** ** Python values *)

Inductive pyval : Type :=
  | PNone
  | PBool (b : bool)
  | PFloat (f : float)
  | PStr (s : string)
  | PList (l : list pyval)
  | PDict (d : gmap string pyval)
  | PMethod (name : string).

(** [bool(v)]: the truth value Python gives to [v] in [if] and [not]. *)
Definition truthy (v : pyval) : bool :=
  match v with
  | PNone => false
  | PBool b => b
  | PFloat f => negb (PrimFloat.eqb f 0%float)
  | PStr s => negb (String.eqb s EmptyString)
  | PList l => match l with [] => false | _ :: _ => true end
  | PDict d => match map_to_list d with [] => false | _ :: _ => true end
  | PMethod _ => true
  end.

(** A dict display [{k1: v1, ..., kn: vn}]: entries are stored left to
    right, a later entry for the same key replacing an earlier one. *)
Definition dict_display (kvs : list (string * pyval)) : gmap string pyval :=
  foldl (fun d kv => <[kv.1 := kv.2]> d) ∅ kvs.

(** ** Exceptions and outcomes *)

Inductive exn : Type :=
  | ImportError (module : string)
  | AttributeError (cls attr : string)
  | KeyError (key : string)
  | TypeError (msg : string)
  | OtherError (msg : string).

Inductive outcome (A : Type) : Type :=
  | Return (a : A)
  | Raise (e : exn).
Arguments Return {A} a.
Arguments Raise {A} e.

(** [str(e)] as the callers print it. *)
Definition exn_str (e : exn) : string :=
  match e with
  | ImportError m => "No module named '" ++ m ++ "'"
  | AttributeError c a => "'" ++ c ++ "' object has no attribute '" ++ a ++ "'"
  | KeyError k => "'" ++ k ++ "'"
  | TypeError m => m
  | OtherError m => m
  end.

(** [v[key]] for a string key. *)
Definition subscript (v : pyval) (key : string) : outcome pyval :=
  match v with
  | PDict d =>
      match d !! key with
      | Some x => Return x
      | None => Raise (KeyError key)
      end
  | PList _ => Raise (TypeError "list indices must be integers or slices, not str")
  | PStr _ => Raise (TypeError "string indices must be integers, not 'str'")
  | _ => Raise (TypeError "object is not subscriptable")
  end.

(** [v.get(key, dflt)]. *)
Definition dict_get (v : pyval) (key : string) (dflt : pyval) : outcome pyval :=
  match v with
  | PDict d => Return (default dflt (d !! key))
  | _ => Raise (AttributeError "object" "get")
  end.

(** ** Methods: a state-and-error monad over the instance dictionary

    A method receives [self] (the instance's [__dict__]) and gives back an
    outcome together with [self] as the method left it; an assignment
    [self.x = v] made before an exception is raised stays visible. *)

Definition method (A : Type) : Type :=
  gmap string pyval -> outcome A * gmap string pyval.

Definition ret {A} (a : A) : method A := fun self => (Return a, self).

Definition bind {A B} (m : method A) (k : A -> method B) : method B :=
  fun self =>
    match m self with
    | (Return a, self') => k a self'
    | (Raise e, self') => (Raise e, self')
    end.

Notation "'let!' x ':=' m 'in' k" := (bind m (fun x => k))
  (at level 10, x name, m at level 100, k at level 200).

(** A computation that does not touch [self]: an expression over locals,
    or a call into another package that is not handed [self]. *)
Definition lift {A} (o : outcome A) : method A := fun self => (o, self).

(** [try: body / except <the exceptions handler accepts>: ...]. *)
Definition try_except {A} (body : method A) (handler : exn -> option (method A))
  : method A :=
  fun self =>
    match body self with
    | (Return a, self') => (Return a, self')
    | (Raise e, self') =>
        match handler e with
        | Some h => h self'
        | None => (Raise e, self')
        end
    end.

Definition result_of {A} (m : method A) (self : gmap string pyval) : outcome A :=
  (m self).1.

Definition self_after {A} (m : method A) (self : gmap string pyval)
  : gmap string pyval :=
  (m self).2.

(** ** The class [RepositoryAnalyzer]: attribute lookup *)

Definition class_name : string := "RepositoryAnalyzer".

(** The names bound in the class body. *)
Definition class_body : list string :=
  ["__init__"; "_check_demo_engine"; "analyze_repository"; "get_engine_info"].

(** [self.name]: the instance dictionary first, then the class body;
    otherwise [AttributeError]. (The class defines no [__getattr__]; the
    dunder attributes every object inherits from [object] are not
    modelled.) *)
Definition getattr (name : string) : method pyval :=
  fun self =>
    match self !! name with
    | Some v => (Return v, self)
    | None =>
        if bool_decide (name ∈ class_body)
        then (Return (PMethod name), self)
        else (Raise (AttributeError class_name name), self)
    end.

(** [self.name = v]. *)
Definition setattr (name : string) (v : pyval) : method unit :=
  fun self => (Return tt, <[name := v]> self).

(** ** Target bands and the recommendation generator of the engine

    The engine lives in the package [repo_intelligence_demo], which is not
    part of the sources; the analyzer only forwards what it returns. *)

Inductive metric : Type := MH | MV | MC | MA.

(** The target bands: H >= 0.6, V >= 0.5, C >= 0.5, A <= 0.3. *)
Definition in_band (m : metric) (x : float) : bool :=
  match m with
  | MH => PrimFloat.leb 0.6%float x
  | MV => PrimFloat.leb 0.5%float x
  | MC => PrimFloat.leb 0.5%float x
  | MA => PrimFloat.leb x 0.3%float
  end.

(** Distance of a metric from its band. *)
Definition band_gap (m : metric) (x : float) : float :=
  match m with
  | MH => PrimFloat.sub 0.6%float x
  | MV => PrimFloat.sub 0.5%float x
  | MC => PrimFloat.sub 0.5%float x
  | MA => PrimFloat.sub x 0.3%float
  end.

Fixpoint insert_by_gap (e : metric * float) (l : list (metric * float))
  : list (metric * float) :=
  match l with
  | [] => [e]
  | e' :: l' =>
      if PrimFloat.ltb (band_gap e'.1 e'.2) (band_gap e.1 e.2)
      then e :: l
      else e' :: insert_by_gap e l'
  end.

Definition largest_gap_first (l : list (metric * float)) : list (metric * float) :=
  foldr insert_by_gap [] l.

(** Modelled from the spec: the recommendation generator of the engine
    (section 4.7), which is absent from the sources. Every metric outside
    its target band yields one templated recommendation; they are ordered
    by the size of the gap to the band, largest first, and capped at
    [max_count] (default 5); with every metric in band the list is empty. *)
Definition generate_recommendations (template : metric -> string)
  (max_count : nat) (H V C A : float) : list string :=
  let outside :=
    filter (fun e => negb (in_band e.1 e.2)) [(MH, H); (MV, V); (MC, C); (MA, A)] in
  map (fun e => template e.1) (take max_count (largest_gap_first outside)).

(** ** Sample environments

    Concrete worlds and engines on which the statements below are
    evaluated. A sample world is a flag telling whether the package
    [repo_intelligence_demo] is installed. *)
Module Sample.

Definition import_demo (installed : bool) : outcome unit :=
  if installed then Return tt else Raise (ImportError "repo_intelligence_demo").

(** An engine answering with the figures of the [/demo/analyze] endpoint. *)
Definition engine_analyze (_ : bool) (repo_url : string) (threshold : float)
  : outcome pyval :=
  Return (PDict (dict_display
    [("meets_threshold", PBool (PrimFloat.leb threshold 0.782%float));
     ("M_score", PFloat 0.782%float);
     ("metrics", PDict (dict_display
        [("H", PFloat 0.85%float); ("V", PFloat 0.72%float);
         ("C", PFloat 0.68%float); ("A", PFloat 0.15%float)]));
     ("recommendations", PList
        [PStr "Consider increasing PR review coverage";
         PStr "Monitor for long-lived feature branches"])])).

Definition template (m : metric) : string :=
  match m with
  | MH => "Spread commits more evenly over time and authors"
  | MV => "Restore a steady delivery pace"
  | MC => "Increase PR review coverage"
  | MA => "Clean up stale branches and unreviewed merges"
  end.

(** An engine whose recommendations come from the generator of the spec. *)
Definition banded_engine (H V C A : float) (_ : bool) (repo_url : string)
  (threshold : float) : outcome pyval :=
  Return (PDict (dict_display
    [("meets_threshold", PBool (PrimFloat.leb threshold 0.7%float));
     ("M_score", PFloat 0.7%float);
     ("metrics", PDict (dict_display
        [("H", PFloat H); ("V", PFloat V); ("C", PFloat C); ("A", PFloat A)]));
     ("recommendations",
        PList (PStr <$> generate_recommendations template 5 H V C A))])).

(** An engine whose verdict depends on the state of the world it is
    called in. *)
Definition clock_engine (now : bool) (repo_url : string) (threshold : float)
  : outcome pyval :=
  Return (PDict (dict_display
    [("meets_threshold", PBool now);
     ("M_score", PFloat (if now then 0.9%float else 0.1%float));
     ("metrics", PDict (dict_display
        [("H", PFloat 0.85%float); ("V", PFloat 0.72%float);
         ("C", PFloat 0.68%float); ("A", PFloat 0.15%float)]))])).

(** An engine that does not clamp what it computes. *)
Definition unclamped_engine (_ : bool) (repo_url : string) (threshold : float)
  : outcome pyval :=
  Return (PDict (dict_display
    [("meets_threshold", PBool true);
     ("M_score", PFloat 2.5%float);
     ("metrics", PDict (dict_display
        [("H", PFloat 1.5%float); ("V", PFloat 0.72%float);
         ("C", PFloat 0.68%float); ("A", PFloat (-0.25)%float)]))])).

Definition json_dump (_ : gmap string pyval) : outcome (list string) :=
  Return ["{...}"].

Definition print_summary (_ : gmap string pyval) : outcome (list string) :=
  Return ["REPOSITORY INTELLIGENCE ANALYSIS"].

Definition format_value (_ : pyval) : string := "?".

Definition vscode : string := "https://github.com/microsoft/vscode".

(** The instance the constructor builds where the package is installed,
    and the one it builds where it is not. *)
Definition installed_analyzer : gmap string pyval :=
  <["demo_available" := PBool true]> ∅.

Definition bare_analyzer : gmap string pyval :=
  <["demo_available" := PBool false]> ∅.

End Sample.

(** ** The analyzer, its command line and its health endpoint *)

Inductive output_format : Type := Json | Summary.

Record cli_run : Type := {
  stderr : list string;
  stdout : list string;
  exit_code : nat
}.

Section Analyzer.

(** What lies outside the repository: the state of the machine a call runs
    in (installed packages, clock, network), the statement
    [import repo_intelligence_demo], and the engine of that package. *)
Variable World : Type.
Variable import_demo : World -> outcome unit.

(** [from repo_intelligence_demo import MathematicalEngine], then
    [MathematicalEngine().analyze(repo_url, threshold)]. *)
Variable engine_analyze : World -> string -> float -> outcome pyval.

(** Output formatting of the command line: [json.dump(result, output,
    indent=2)], [_print_summary(result, output)] (which formats floats with
    [:.3f]) and the f-string rendering of a value. *)
Variable json_dump : gmap string pyval -> outcome (list string).
Variable print_summary : gmap string pyval -> outcome (list string).
Variable format_value : pyval -> string.

Definition _check_demo_engine (w : World) : method pyval :=
  try_except
    (let! _ := lift (import_demo w) in
     ret (PBool true))
    (fun e =>
       match e with
       | ImportError _ => Some (ret (PBool false))
       | _ => None
       end).

Definition __init__ (w : World) : method unit :=
  let! available := _check_demo_engine w in
  setattr "demo_available" available.

(** The call [RepositoryAnalyzer()]: a fresh instance, initialised. *)
Definition RepositoryAnalyzer (w : World) : outcome (gmap string pyval) :=
  match __init__ w ∅ with
  | (Return _, self) => Return self
  | (Raise e, _) => Raise e
  end.

Definition analyze_repository (w : World) (repo_url : string) (threshold : float)
  : method (gmap string pyval) :=
  let! demo_available := getattr "demo_available" in
  if negb (truthy demo_available) then
    ret (dict_display
      [("repository", PStr repo_url);
       ("classification", PStr "DEMO_HEALTHY");
       ("M_score", PFloat 0.75%float);
       ("threshold", PFloat threshold);
       ("metrics", PDict (dict_display
          [("H", PFloat 0.8%float);
           ("V", PFloat 0.7%float);
           ("C", PFloat 0.6%float);
           ("A", PFloat 0.2%float)]));
       ("recommendations",
          PList [PStr "Install repo-intelligence-core for full analysis"]);
       ("demo", PBool false);
       ("demo_mode", PBool true)])
  else
    let! result := lift (engine_analyze w repo_url threshold) in
    let! meets_threshold := lift (subscript result "meets_threshold") in
    let! M_score := lift (subscript result "M_score") in
    let! metrics := lift (subscript result "metrics") in
    let! recommendations := lift (dict_get result "recommendations" (PList [])) in
    ret (dict_display
      [("repository", PStr repo_url);
       ("classification",
          PStr (if truthy meets_threshold then "HEALTHY" else "NEEDS_ATTENTION"));
       ("M_score", M_score);
       ("threshold", PFloat threshold);
       ("metrics", metrics);
       ("recommendations", recommendations);
       ("demo", PBool true)]).

Definition get_engine_info : method (gmap string pyval) :=
  let! demo_available := getattr "demo_available" in
  if truthy demo_available then
    ret (dict_display
      [("engine", PStr "Proprietary π₁ Mathematical Engine");
       ("capabilities", PList
          [PStr "Full repository analysis"; PStr "π₁ formula";
           PStr "Custom thresholds"]);
       ("version", PStr "1.0.0")])
  else
    ret (dict_display
      [("engine", PStr "Demo Mode");
       ("capabilities", PList
          [PStr "Basic structure analysis"; PStr "Demo metrics"]);
       ("message", PStr "Install repo-intelligence-core for full capabilities")]).

(** *** [cli/analyze.py]: the [analyze] command

    The command echoes to stderr, writes the report to its output and
    leaves through [sys.exit(1)] when anything inside its [try] raises. *)

Definition cli_failed (err : list string) (e : exn) : cli_run :=
  {| stderr := (err ++ ["❌ Error: " +:+ exn_str e])%list;
     stdout := [];
     exit_code := 1 |}.

Definition newline : string := String (Ascii.ascii_of_nat 10) EmptyString.

Definition is_healthy (result : gmap string pyval) : bool :=
  match result !! "classification" with
  | Some (PStr s) => String.eqb s "HEALTHY"
  | _ => false
  end.

Definition analyze (w : World) (repo_url : string) (threshold : float)
  (fmt : output_format) : cli_run :=
  let err0 := ["🔍 Analyzing repository: " ++ repo_url] in
  match RepositoryAnalyzer w with
  | Raise e => cli_failed err0 e
  | Return analyzer =>
  match get_engine_info analyzer with
  | (Raise e, _) => cli_failed err0 e
  | (Return engine_info, analyzer) =>
  match getattr "proprietary_available" analyzer with
  | (Raise e, _) => cli_failed err0 e
  | (Return proprietary_available, analyzer) =>
  let err1 :=
    if negb (truthy proprietary_available)
    then (err0 ++ ["⚠️  Running in demo mode - install repo-intelligence-core for full analysis"])%list
    else err0 in
  match analyze_repository w repo_url threshold analyzer with
  | (Raise e, _) => cli_failed err1 e
  | (Return result, _) =>
  match (match fmt with Json => json_dump result | Summary => print_summary result end) with
  | Raise e => cli_failed err1 e
  | Return out =>
  let status := if is_healthy result then "✅ HEALTHY" else "⚠️  NEEDS ATTENTION" in
  let score := format_value (default (PStr "N/A") (result !! "M_score")) in
  {| stderr := (err1 ++ [newline +:+ status +:+ " (Score: " +:+ score +:+ ")"])%list;
     stdout := out;
     exit_code := 0 |}
  end end end end end.

(** *** [src/api/main.py]: the [/health] endpoint *)

Definition health_check (w : World) : outcome (gmap string pyval) :=
  match RepositoryAnalyzer w with
  | Raise e => Raise e
  | Return analyzer =>
      match getattr "proprietary_available" analyzer with
      | (Raise e, _) => Raise e
      | (Return proprietary_available, _) =>
          Return (dict_display
            [("status", PStr "healthy");
             ("proprietary_engine_available", proprietary_available);
             ("version", PStr "1.0.0")])
      end
  end.

(** ** Reading a result *)

(** The four metrics of a result, when all are present as floats. *)
Definition metrics_of (res : gmap string pyval) : option (float * float * float * float) :=
  match res !! "metrics" with
  | Some (PDict md) =>
      match md !! "H", md !! "V", md !! "C", md !! "A" with
      | Some (PFloat h), Some (PFloat v), Some (PFloat c), Some (PFloat a) =>
          Some (h, v, c, a)
      | _, _, _, _ => None
      end
  | _ => None
  end.

Definition unit_interval (x : float) : bool :=
  PrimFloat.leb 0%float x && PrimFloat.leb x 1%float.

Definition all_in_band (res : gmap string pyval) : bool :=
  match metrics_of res with
  | Some (h, v, c, a) => in_band MH h && in_band MV v && in_band MC c && in_band MA a
  | None => false
  end.

Definition scores_in_range (res : gmap string pyval) : bool :=
  match res !! "M_score", metrics_of res with
  | Some (PFloat m), Some (h, v, c, a) =>
      unit_interval m && unit_interval h && unit_interval v
      && unit_interval c && unit_interval a
  | _, _ => false
  end.

(** ** Sequences of calls on one analyzer *)

Inductive call : Type :=
  | CallAnalyze (w : World) (repo_url : string) (threshold : float)
  | CallEngineInfo.

(** The instance as one call leaves it, whether it returned or raised. *)
Definition perform (c : call) (self : gmap string pyval) : gmap string pyval :=
  match c with
  | CallAnalyze w repo_url threshold =>
      self_after (analyze_repository w repo_url threshold) self
  | CallEngineInfo => self_after get_engine_info self
  end.

Definition perform_all (cs : list call) (self : gmap string pyval)
  : gmap string pyval :=
  foldl (fun s c => perform c s) self cs.

(** ** What the two paths of [analyze_repository] return *)

(** The result of the path taken when the engine is unavailable. *)
Definition demo_result (repo_url : string) (threshold : float) : gmap string pyval :=
  dict_display
    [("repository", PStr repo_url);
     ("classification", PStr "DEMO_HEALTHY");
     ("M_score", PFloat 0.75%float);
     ("threshold", PFloat threshold);
     ("metrics", PDict (dict_display
        [("H", PFloat 0.8%float); ("V", PFloat 0.7%float);
         ("C", PFloat 0.6%float); ("A", PFloat 0.2%float)]));
     ("recommendations",
        PList [PStr "Install repo-intelligence-core for full analysis"]);
     ("demo", PBool false);
     ("demo_mode", PBool true)].

(** The result built from the four entries read off the engine's answer. *)
Definition engine_result (repo_url : string) (threshold : float)
  (meets_threshold M_score metrics recommendations : pyval) : gmap string pyval :=
  dict_display
    [("repository", PStr repo_url);
     ("classification",
        PStr (if truthy meets_threshold then "HEALTHY" else "NEEDS_ATTENTION"));
     ("M_score", M_score);
     ("threshold", PFloat threshold);
     ("metrics", metrics);
     ("recommendations", recommendations);
     ("demo", PBool true)].

(** The claims as the specification words them, as predicates on a result. *)

Definition classified_by_threshold (t : float) (res : gmap string pyval) : Prop :=
  ∃ m, res !! "M_score" = Some (PFloat m)
    ∧ (res !! "classification" = Some (PStr "HEALTHY") ↔ PrimFloat.leb t m = true)
    ∧ (PrimFloat.leb t m = false →
       res !! "classification" = Some (PStr "NEEDS_ATTENTION")).

Definition two_valued (res : gmap string pyval) : Prop :=
  res !! "classification" = Some (PStr "HEALTHY")
  ∨ res !! "classification" = Some (PStr "NEEDS_ATTENTION").

Definition has_demo_mode_flag (res : gmap string pyval) : Prop :=
  ∃ b, res !! "demo_mode" = Some (PBool b).

(** The valid range of the threshold, (0, 1]. *)
Definition valid_threshold (t : float) : bool :=
  PrimFloat.ltb 0%float t && PrimFloat.leb t 1%float.

(** ** Lemmas on the monad and on the two paths *)

Definition preserves_self {A} (m : method A) : Prop :=
  ∀ self, self_after m self = self.

Lemma preserves_self_ret {A} (a : A) : preserves_self (ret a).
Proof. by intros self. Qed.

Lemma preserves_self_lift {A} (o : outcome A) : preserves_self (lift o).
Proof. by intros self. Qed.

Lemma preserves_self_getattr (name : string) : preserves_self (getattr name).
Proof.
  intros self. unfold self_after, getattr.
  destruct (self !! name); [done|]. by case_bool_decide.
Qed.

Lemma preserves_self_bind {A B} (m : method A) (k : A → method B) :
  preserves_self m → (∀ a, preserves_self (k a)) → preserves_self (bind m k).
Proof.
  intros Hm Hk self. unfold self_after, bind.
  specialize (Hm self). unfold self_after in Hm.
  destruct (m self) as [[a|e] self']; simpl in *; subst self'.
  - apply Hk.
  - done.
Qed.

Lemma preserves_self_if {A} (b : bool) (m1 m2 : method A) :
  preserves_self m1 → preserves_self m2 → preserves_self (if b then m1 else m2).
Proof. by destruct b. Qed.

Lemma preserves_self_analyze_repository (w : World) (u : string) (t : float) :
  preserves_self (analyze_repository w u t).
Proof.
  unfold analyze_repository.
  apply preserves_self_bind; [apply preserves_self_getattr|]. intros v.
  apply preserves_self_if; [apply preserves_self_ret|].
  repeat (apply preserves_self_bind; [apply preserves_self_lift|]; intros ?).
  apply preserves_self_ret.
Qed.

Lemma preserves_self_get_engine_info : preserves_self get_engine_info.
Proof.
  unfold get_engine_info.
  apply preserves_self_bind; [apply preserves_self_getattr|]. intros v.
  apply preserves_self_if; apply preserves_self_ret.
Qed.

Lemma perform_id (c : call) (self : gmap string pyval) : perform c self = self.
Proof.
  destruct c; simpl.
  - apply preserves_self_analyze_repository.
  - apply preserves_self_get_engine_info.
Qed.

Lemma perform_all_id (cs : list call) (self : gmap string pyval) :
  perform_all cs self = self.
Proof.
  revert self. induction cs as [|c cs IH]; intros self; [done|].
  unfold perform_all in *. simpl. rewrite perform_id. apply IH.
Qed.

Lemma analyze_repository_needs_flag (w : World) (u : string) (t : float)
  (self : gmap string pyval) :
  self !! "demo_available" = None →
  result_of (analyze_repository w u t) self
  = Raise (AttributeError class_name "demo_available").
Proof.
  intros Hnone. unfold result_of, analyze_repository, bind, getattr.
  by rewrite Hnone.
Qed.

Lemma analyze_repository_demo (w : World) (u : string) (t : float)
  (self : gmap string pyval) (v : pyval) :
  self !! "demo_available" = Some v → truthy v = false →
  result_of (analyze_repository w u t) self = Return (demo_result u t).
Proof.
  intros Hv Hfalse. unfold result_of, analyze_repository, bind, getattr.
  by rewrite Hv, Hfalse.
Qed.

Lemma analyze_repository_engine_raises (w : World) (u : string) (t : float)
  (self : gmap string pyval) (v : pyval) (e : exn) :
  self !! "demo_available" = Some v → truthy v = true →
  engine_analyze w u t = Raise e →
  result_of (analyze_repository w u t) self = Raise e.
Proof.
  intros Hv Htrue He. unfold result_of, analyze_repository, bind, getattr, lift.
  by rewrite Hv, Htrue, He.
Qed.

Lemma analyze_repository_engine_returns (w : World) (u : string) (t : float)
  (self : gmap string pyval) (v : pyval) (r : gmap string pyval)
  (mt m ms : pyval) :
  self !! "demo_available" = Some v → truthy v = true →
  engine_analyze w u t = Return (PDict r) →
  r !! "meets_threshold" = Some mt →
  r !! "M_score" = Some m →
  r !! "metrics" = Some ms →
  result_of (analyze_repository w u t) self
  = Return (engine_result u t mt m ms (default (PList []) (r !! "recommendations"))).
Proof.
  intros Hv Htrue Hr Hmt Hm Hms.
  unfold result_of, analyze_repository, bind, getattr, lift.
  rewrite Hv, Htrue, Hr. simpl. by rewrite Hmt, Hm, Hms.
Qed.

Lemma analyze_repository_engine_inv (w : World) (u : string) (t : float)
  (self : gmap string pyval) (v : pyval) (res : gmap string pyval) :
  self !! "demo_available" = Some v → truthy v = true →
  result_of (analyze_repository w u t) self = Return res →
  ∃ r mt m ms,
    engine_analyze w u t = Return (PDict r)
    ∧ r !! "meets_threshold" = Some mt
    ∧ r !! "M_score" = Some m
    ∧ r !! "metrics" = Some ms
    ∧ res = engine_result u t mt m ms (default (PList []) (r !! "recommendations")).
Proof.
  intros Hv Htrue.
  unfold result_of, analyze_repository, bind, getattr, lift.
  rewrite Hv, Htrue. simpl.
  destruct (engine_analyze w u t) as [result|e]; [|done].
  destruct result as [| | | | |r|]; simpl; try done.
  destruct (r !! "meets_threshold") as [mt|] eqn:Hmt; [|done].
  destruct (r !! "M_score") as [m|] eqn:Hm; [|done].
  destruct (r !! "metrics") as [ms|] eqn:Hms; [|done].
  simpl. intros [= <-]. by exists r, mt, m, ms.
Qed.

(** The entries of the two results. *)

Lemma demo_result_lookup (u : string) (t : float) :
  demo_result u t !! "repository" = Some (PStr u)
  ∧ demo_result u t !! "classification" = Some (PStr "DEMO_HEALTHY")
  ∧ demo_result u t !! "M_score" = Some (PFloat 0.75%float)
  ∧ demo_result u t !! "threshold" = Some (PFloat t)
  ∧ demo_result u t !! "metrics" = Some (PDict (dict_display
      [("H", PFloat 0.8%float); ("V", PFloat 0.7%float);
       ("C", PFloat 0.6%float); ("A", PFloat 0.2%float)]))
  ∧ demo_result u t !! "recommendations"
    = Some (PList [PStr "Install repo-intelligence-core for full analysis"])
  ∧ demo_result u t !! "demo" = Some (PBool false)
  ∧ demo_result u t !! "demo_mode" = Some (PBool true).
Proof. repeat split; reflexivity. Qed.

Lemma engine_result_lookup (u : string) (t : float) (mt m ms recs : pyval) :
  engine_result u t mt m ms recs !! "repository" = Some (PStr u)
  ∧ engine_result u t mt m ms recs !! "classification"
    = Some (PStr (if truthy mt then "HEALTHY" else "NEEDS_ATTENTION"))
  ∧ engine_result u t mt m ms recs !! "M_score" = Some m
  ∧ engine_result u t mt m ms recs !! "threshold" = Some (PFloat t)
  ∧ engine_result u t mt m ms recs !! "metrics" = Some ms
  ∧ engine_result u t mt m ms recs !! "recommendations" = Some recs
  ∧ engine_result u t mt m ms recs !! "demo" = Some (PBool true)
  ∧ engine_result u t mt m ms recs !! "demo_mode" = None.
Proof. repeat split; reflexivity. Qed.

(** ** The claims *)

(** Case analysis on the path a returning call took. *)
Lemma analyze_repository_paths (w : World) (u : string) (t : float)
  (self res : gmap string pyval) :
  result_of (analyze_repository w u t) self = Return res →
  match self !! "demo_available" with
  | Some v =>
      if truthy v then
        ∃ r mt m ms,
          engine_analyze w u t = Return (PDict r)
          ∧ r !! "meets_threshold" = Some mt
          ∧ r !! "M_score" = Some m
          ∧ r !! "metrics" = Some ms
          ∧ res = engine_result u t mt m ms (default (PList []) (r !! "recommendations"))
      else res = demo_result u t
  | None => False
  end.
Proof.
  intros Hres. destruct (self !! "demo_available") as [v|] eqn:Hv.
  - destruct (truthy v) eqn:Hflag.
    + by eapply analyze_repository_engine_inv.
    + rewrite (analyze_repository_demo w u t self v Hv Hflag) in Hres.
      by injection Hres as <-.
  - by rewrite analyze_repository_needs_flag in Hres.
Qed.

(** C1 (amended): the analyzer never compares [M_score] with the threshold
    itself. When the engine is available, the classification is "HEALTHY"
    if the engine's [meets_threshold] entry is truthy and "NEEDS_ATTENTION"
    otherwise, the [M_score] is the engine's, and so the classification is
    "HEALTHY" iff [M_score >= t] whenever the engine's flag is that
    comparison. When the engine is unavailable the classification is
    "DEMO_HEALTHY" for every threshold. *)
Theorem classification_by_path (w : World) (u : string) (t : float)
  (self res : gmap string pyval) :
  result_of (analyze_repository w u t) self = Return res →
  match self !! "demo_available" with
  | Some v =>
      if truthy v then
        ∃ r mt,
          engine_analyze w u t = Return (PDict r)
          ∧ r !! "meets_threshold" = Some mt
          ∧ res !! "M_score" = r !! "M_score"
          ∧ res !! "classification"
            = Some (PStr (if truthy mt then "HEALTHY" else "NEEDS_ATTENTION"))
          ∧ (∀ m, r !! "M_score" = Some (PFloat m) →
                  truthy mt = PrimFloat.leb t m →
                  classified_by_threshold t res)
      else res !! "classification" = Some (PStr "DEMO_HEALTHY")
  | None => False
  end.
Proof.
  intros Hres. apply analyze_repository_paths in Hres.
  destruct (self !! "demo_available") as [v|]; [|done].
  destruct (truthy v).
  - destruct Hres as (r & mt & m & ms & Hr & Hmt & Hm & Hms & ->).
    exists r, mt.
    destruct (engine_result_lookup u t mt m ms
                (default (PList []) (r !! "recommendations")))
      as (_ & Hcls & Hscore & _).
    rewrite Hscore, Hcls, Hm. repeat split; try done.
    intros m' [= ->] Hcmp. exists m'. rewrite Hscore, Hcls, <- Hcmp.
    repeat split; destruct (truthy mt); try done.
  - subst res. by destruct (demo_result_lookup u t) as (_ & Hcls & _).
Qed.

(** C2 (amended): the classification of a returned result is one of three
    strings: "HEALTHY" or "NEEDS_ATTENTION" when the engine is available,
    and "DEMO_HEALTHY" when it is not. *)
Theorem classification_three_valued (w : World) (u : string) (t : float)
  (self res : gmap string pyval) :
  result_of (analyze_repository w u t) self = Return res →
  match self !! "demo_available" with
  | Some v =>
      if truthy v then two_valued res
      else res !! "classification" = Some (PStr "DEMO_HEALTHY")
  | None => False
  end.
Proof.
  intros Hres. apply analyze_repository_paths in Hres.
  destruct (self !! "demo_available") as [v|]; [|done].
  destruct (truthy v).
  - destruct Hres as (r & mt & m & ms & _ & _ & _ & _ & ->).
    unfold two_valued.
    destruct (engine_result_lookup u t mt m ms
                (default (PList []) (r !! "recommendations")))
      as (_ & -> & _).
    destruct (truthy mt); [by left | by right].
  - subst res. by destruct (demo_result_lookup u t) as (_ & Hcls & _).
Qed.

(** C3 (amended): every returned result has a boolean [demo] entry. The
    [demo_mode] entry is present, and [True], only when the engine is
    unavailable; the result of the engine path has [demo = True] and no
    [demo_mode] key at all. *)
Theorem demo_flags_by_path (w : World) (u : string) (t : float)
  (self res : gmap string pyval) :
  result_of (analyze_repository w u t) self = Return res →
  (∃ b, res !! "demo" = Some (PBool b))
  ∧ match self !! "demo_available" with
    | Some v =>
        if truthy v
        then res !! "demo" = Some (PBool true) ∧ res !! "demo_mode" = None
        else res !! "demo" = Some (PBool false)
             ∧ res !! "demo_mode" = Some (PBool true)
    | None => False
    end.
Proof.
  intros Hres. apply analyze_repository_paths in Hres.
  destruct (self !! "demo_available") as [v|]; [|done].
  destruct (truthy v).
  - destruct Hres as (r & mt & m & ms & _ & _ & _ & _ & ->).
    destruct (engine_result_lookup u t mt m ms
                (default (PList []) (r !! "recommendations")))
      as (_ & _ & _ & _ & _ & _ & Hdemo & Hmode).
    split; [by exists true | done].
  - subst res.
    destruct (demo_result_lookup u t) as (_ & _ & _ & _ & _ & _ & Hdemo & Hmode).
    split; [by exists false | done].
Qed.

(** C4: when [demo_available] is false the result is a constant up to its
    [repository] entry: for any two URLs, any two worlds and any threshold
    both calls return, the two results agree once [repository] is removed,
    and [M_score = 0.75], [metrics = {H: 0.8, V: 0.7, C: 0.6, A: 0.2}],
    [classification = "DEMO_HEALTHY"] and the single install
    recommendation hold for every input. *)
Theorem demo_result_constant (w1 w2 : World) (u1 u2 : string) (t : float)
  (self : gmap string pyval) :
  self !! "demo_available" = Some (PBool false) →
  ∃ r1 r2,
    result_of (analyze_repository w1 u1 t) self = Return r1
    ∧ result_of (analyze_repository w2 u2 t) self = Return r2
    ∧ delete "repository" r1 = delete "repository" r2
    ∧ r1 !! "repository" = Some (PStr u1)
    ∧ r1 !! "M_score" = Some (PFloat 0.75%float)
    ∧ r1 !! "metrics" = Some (PDict (dict_display
        [("H", PFloat 0.8%float); ("V", PFloat 0.7%float);
         ("C", PFloat 0.6%float); ("A", PFloat 0.2%float)]))
    ∧ r1 !! "classification" = Some (PStr "DEMO_HEALTHY")
    ∧ r1 !! "recommendations"
      = Some (PList [PStr "Install repo-intelligence-core for full analysis"]).
Proof.
  intros Hflag. exists (demo_result u1 t), (demo_result u2 t).
  split; [by apply (analyze_repository_demo w1 u1 t self (PBool false))|].
  split; [by apply (analyze_repository_demo w2 u2 t self (PBool false))|].
  split.
  - unfold demo_result, dict_display. cbn [foldl fst snd].
    rewrite !delete_insert_ne by done. by rewrite !delete_insert_eq.
  - destruct (demo_result_lookup u1 t) as (? & ? & ? & ? & ? & ? & ? & ?).
    repeat split; assumption.
Qed.

(** C5 (amended): the analyzer neither computes nor clamps a score. When
    the engine is unavailable the [M_score] is 0.75 and the metrics are
    0.8, 0.7, 0.6 and 0.2, all within [0, 1]. When the engine is available
    the [M_score] and the metrics of the result are the engine's own,
    handed on unchanged, so they lie in [0, 1] exactly when the engine's
    do. *)
Theorem scores_by_path (w : World) (u : string) (t : float)
  (self res : gmap string pyval) :
  result_of (analyze_repository w u t) self = Return res →
  match self !! "demo_available" with
  | Some v =>
      if truthy v then
        ∃ r,
          engine_analyze w u t = Return (PDict r)
          ∧ res !! "M_score" = r !! "M_score"
          ∧ res !! "metrics" = r !! "metrics"
          ∧ scores_in_range res = scores_in_range r
      else
        res !! "M_score" = Some (PFloat 0.75%float)
        ∧ metrics_of res = Some (0.8%float, 0.7%float, 0.6%float, 0.2%float)
        ∧ scores_in_range res = true
  | None => False
  end.
Proof.
  intros Hres. apply analyze_repository_paths in Hres.
  destruct (self !! "demo_available") as [v|]; [|done].
  destruct (truthy v).
  - destruct Hres as (r & mt & m & ms & Hr & _ & Hm & Hms & ->).
    exists r. unfold scores_in_range, metrics_of.
    destruct (engine_result_lookup u t mt m ms
                (default (PList []) (r !! "recommendations")))
      as (_ & _ & -> & _ & -> & _).
    by rewrite Hm, Hms.
  - subst res. by repeat split.
Qed.

(** C7 (amended): [analyze_repository] does not validate the threshold.
    When the engine is unavailable every threshold, inside (0, 1] or not,
    yields the demo result with the threshold echoed unchanged. When the
    engine is available the threshold is handed to it unchanged: the call
    raises what the engine raises, and a returned result echoes the
    threshold. *)
Theorem threshold_not_validated (w : World) (u : string) (t : float)
  (self : gmap string pyval) :
  match self !! "demo_available" with
  | Some v =>
      if truthy v then
        (∀ e, engine_analyze w u t = Raise e →
              result_of (analyze_repository w u t) self = Raise e)
        ∧ (∀ res, result_of (analyze_repository w u t) self = Return res →
                  res !! "threshold" = Some (PFloat t)
                  ∧ ∃ r, engine_analyze w u t = Return (PDict r))
      else
        ∃ res, result_of (analyze_repository w u t) self = Return res
               ∧ res !! "threshold" = Some (PFloat t)
  | None =>
      result_of (analyze_repository w u t) self
      = Raise (AttributeError class_name "demo_available")
  end.
Proof.
  destruct (self !! "demo_available") as [v|] eqn:Hv.
  - destruct (truthy v) eqn:Hflag.
    + split.
      * intros e He. by eapply analyze_repository_engine_raises.
      * intros res Hres.
        destruct (analyze_repository_engine_inv w u t self v res Hv Hflag Hres)
          as (r & mt & m & ms & Hr & _ & _ & _ & ->).
        split; [|by exists r].
        by destruct (engine_result_lookup u t mt m ms
                       (default (PList []) (r !! "recommendations")))
          as (_ & _ & _ & Hth & _).
    + exists (demo_result u t).
      split; [by eapply analyze_repository_demo|].
      by destruct (demo_result_lookup u t) as (_ & _ & _ & Hth & _).
  - by apply analyze_repository_needs_flag.
Qed.

Lemma generate_recommendations_in_band (template : metric → string) (n : nat)
  (h v c a : float) :
  in_band MH h && in_band MV v && in_band MC c && in_band MA a = true →
  generate_recommendations template n h v c a = [].
Proof.
  intros Hband.
  apply andb_prop in Hband as [Hband Ha].
  apply andb_prop in Hband as [Hband Hc].
  apply andb_prop in Hband as [Hh Hv].
  unfold generate_recommendations.
  rewrite !filter_cons. cbn [fst snd].
  rewrite Hh, Hv, Hc, Ha. simpl. by destruct n.
Qed.

(** C8 (amended): in-band metrics give an empty recommendation list only
    on the engine path. There the metrics and the recommendations are the
    engine's ([[]] when it supplies none), so a result whose metrics are
    all in band has no recommendation whenever the engine's list comes from
    the generator of section 4.7. When the engine is unavailable the
    result has all four metrics in band and still carries one
    recommendation, the install hint. *)
Theorem recommendations_by_path (w : World) (u : string) (t : float)
  (self res : gmap string pyval) :
  result_of (analyze_repository w u t) self = Return res →
  match self !! "demo_available" with
  | Some v =>
      if truthy v then
        ∃ r,
          engine_analyze w u t = Return (PDict r)
          ∧ res !! "metrics" = r !! "metrics"
          ∧ res !! "recommendations"
            = Some (default (PList []) (r !! "recommendations"))
          ∧ (all_in_band res = true →
             (∃ template n h v c a,
                 metrics_of r = Some (h, v, c, a)
                 ∧ r !! "recommendations"
                   = Some (PList (PStr <$> generate_recommendations template n h v c a))) →
             res !! "recommendations" = Some (PList []))
      else
        all_in_band res = true
        ∧ res !! "recommendations"
          = Some (PList [PStr "Install repo-intelligence-core for full analysis"])
  | None => False
  end.
Proof.
  intros Hres. apply analyze_repository_paths in Hres.
  destruct (self !! "demo_available") as [v0|]; [|done].
  destruct (truthy v0).
  - destruct Hres as (r & mt & m & ms & Hr & _ & _ & Hms & ->).
    exists r.
    destruct (engine_result_lookup u t mt m ms
                (default (PList []) (r !! "recommendations")))
      as (_ & _ & _ & _ & Hmetrics & Hrecs & _).
    rewrite Hrecs, Hmetrics, Hms. split; [done|]. do 2 (split; [done|]).
    intros Hband (template & n & h & v & c & a & Hread & Hgen).
    f_equal. rewrite Hgen. simpl. f_equal.
    unfold all_in_band, metrics_of in Hband. rewrite Hmetrics in Hband.
    unfold metrics_of in Hread. rewrite Hms in Hread.
    destruct ms as [| | | | |md|]; try done.
    rewrite Hread in Hband.
    by rewrite generate_recommendations_in_band.
  - subst res. split; [reflexivity|].
    by destruct (demo_result_lookup u t) as (_ & _ & _ & _ & _ & Hrecs & _).
Qed.

(** C9: the analyzer is stateless across calls. Each call to
    [analyze_repository] and to [get_engine_info], returning or raising,
    leaves the instance as it found it, and so does every sequence of such
    calls; in particular [demo_available] keeps its value. *)
Theorem analyzer_state_unchanged (cs : list call) (self : gmap string pyval) :
  (∀ w u t, self_after (analyze_repository w u t) self = self)
  ∧ self_after get_engine_info self = self
  ∧ perform_all cs self = self
  ∧ perform_all cs self !! "demo_available" = self !! "demo_available".
Proof.
  split; [intros w u t; apply preserves_self_analyze_repository|].
  split; [apply preserves_self_get_engine_info|].
  by rewrite perform_all_id.
Qed.

(** What the constructor builds: an instance whose dictionary has the one
    key [demo_available], unless the import raised something else than
    [ImportError]. *)
Lemma RepositoryAnalyzer_cases (w : World) :
  (∃ b, RepositoryAnalyzer w = Return (<["demo_available" := PBool b]> ∅))
  ∨ (∃ e, RepositoryAnalyzer w = Raise e).
Proof.
  unfold RepositoryAnalyzer, __init__, _check_demo_engine.
  unfold bind, try_except, lift, ret, setattr.
  destruct (import_demo w) as [[]|e]; simpl.
  - left. by exists true.
  - destruct e; simpl; try (right; by eexists). left. by exists false.
Qed.

Lemma getattr_undefined (name : string) (self : gmap string pyval) :
  self !! name = None → name ∉ class_body →
  getattr name self = (Raise (AttributeError class_name name), self).
Proof.
  intros Hnone Hbody. unfold getattr. rewrite Hnone.
  by rewrite bool_decide_eq_false_2.
Qed.

Lemma proprietary_available_not_in_class : "proprietary_available" ∉ class_body.
Proof.
  unfold class_body. rewrite !not_elem_of_cons.
  repeat split; [done..|apply not_elem_of_nil].
Qed.

Lemma get_engine_info_instance (b : bool) :
  ∃ info, get_engine_info (<["demo_available" := PBool b]> ∅)
          = (Return info, <["demo_available" := PBool b]> ∅).
Proof.
  unfold get_engine_info, bind, getattr. rewrite lookup_insert_eq.
  destruct b; simpl; by eexists.
Qed.

(** C10: no instance has an attribute [proprietary_available]. The
    constructor stores the single key [demo_available] and no call adds
    another, so reading [analyzer.proprietary_available] raises
    [AttributeError] after any sequence of calls; the [/health] endpoint
    therefore raises it instead of answering, and the [analyze] command
    reports it and exits with status 1 without analysing anything. *)
Theorem proprietary_available_undefined (w : World) :
  match RepositoryAnalyzer w with
  | Return self =>
      dom self = {["demo_available"]}
      ∧ (∀ cs,
            perform_all cs self !! "proprietary_available" = None
            ∧ result_of (getattr "proprietary_available") (perform_all cs self)
              = Raise (AttributeError "RepositoryAnalyzer" "proprietary_available"))
      ∧ health_check w
        = Raise (AttributeError "RepositoryAnalyzer" "proprietary_available")
      ∧ (∀ u t fmt,
            analyze w u t fmt
            = cli_failed ["🔍 Analyzing repository: " +:+ u]
                (AttributeError "RepositoryAnalyzer" "proprietary_available")
            ∧ exit_code (analyze w u t fmt) = 1
            ∧ stdout (analyze w u t fmt) = [])
  | Raise e => health_check w = Raise e
  end.
Proof.
  pose proof proprietary_available_not_in_class as Hbody.
  destruct (RepositoryAnalyzer_cases w) as [[b Hnew]|[e Hnew]].
  - rewrite Hnew.
    assert ((<["demo_available" := PBool b]> ∅ : gmap string pyval)
              !! "proprietary_available" = None) as Hnone
      by (rewrite lookup_insert_ne by done; apply lookup_empty).
    split; [rewrite dom_insert_L, dom_empty_L; apply (right_id_L ∅ (∪))|].
    split.
    { intros cs. rewrite perform_all_id. split; [done|].
      unfold result_of. by rewrite getattr_undefined. }
    split.
    { unfold health_check. rewrite Hnew. by rewrite getattr_undefined. }
    intros u t fmt.
    assert (analyze w u t fmt
            = cli_failed ["🔍 Analyzing repository: " +:+ u]
                (AttributeError "RepositoryAnalyzer" "proprietary_available"))
      as Hrun.
    { unfold analyze. rewrite Hnew.
      destruct (get_engine_info_instance b) as [info ->].
      by rewrite getattr_undefined. }
    by rewrite Hrun.
  - rewrite Hnew. unfold health_check. by rewrite Hnew.
Qed.

End Analyzer.

(** ** The claims on concrete runs *)

Lemma bare_analyzer_constructed :
  RepositoryAnalyzer bool Sample.import_demo false = Return Sample.bare_analyzer.
Proof. reflexivity. Qed.

Lemma installed_analyzer_constructed :
  RepositoryAnalyzer bool Sample.import_demo true = Return Sample.installed_analyzer.
Proof. reflexivity. Qed.

(** C1 as stated fails: without the engine, at the default threshold 0.7,
    the score 0.75 reaches the threshold and yet the classification is
    "DEMO_HEALTHY", not "HEALTHY". *)
Lemma demo_mode_not_classified_by_threshold :
  ∃ res,
    result_of (analyze_repository bool Sample.engine_analyze false Sample.vscode
                 0.7%float) Sample.bare_analyzer = Return res
    ∧ res !! "M_score" = Some (PFloat 0.75%float)
    ∧ PrimFloat.leb 0.7%float 0.75%float = true
    ∧ res !! "classification" = Some (PStr "DEMO_HEALTHY")
    ∧ ¬ classified_by_threshold 0.7%float res.
Proof.
  exists (demo_result Sample.vscode 0.7%float).
  destruct (demo_result_lookup Sample.vscode 0.7%float) as (_ & Hcls & Hscore & _).
  repeat split; try done.
  intros (m & Hm & Hiff & _). rewrite Hscore in Hm. injection Hm as <-.
  rewrite Hcls in Hiff. by destruct Hiff as [_ Hiff]; specialize (Hiff eq_refl).
Qed.

Lemma classification_by_path_witness :
  ∃ res,
    result_of (analyze_repository bool Sample.engine_analyze true Sample.vscode
                 0.7%float) Sample.installed_analyzer = Return res
    ∧ res !! "classification" = Some (PStr "HEALTHY")
    ∧ classified_by_threshold 0.7%float res.
Proof.
  eexists. split; [reflexivity|].
  destruct (classification_by_path bool Sample.engine_analyze true Sample.vscode
              0.7%float Sample.installed_analyzer _ eq_refl)
    as (r & mt & Hr & Hmt & _ & Hcls & Hcmp).
  injection Hr as <-. injection Hmt as <-.
  split; [exact Hcls|]. apply (Hcmp 0.782%float); reflexivity.
Defined.

(** C2 as stated fails: without the engine the classification is a third
    string, "DEMO_HEALTHY". *)
Lemma demo_mode_third_classification :
  ∃ res,
    result_of (analyze_repository bool Sample.engine_analyze false Sample.vscode
                 0.7%float) Sample.bare_analyzer = Return res
    ∧ res !! "classification" = Some (PStr "DEMO_HEALTHY")
    ∧ ¬ two_valued res.
Proof.
  exists (demo_result Sample.vscode 0.7%float).
  destruct (demo_result_lookup Sample.vscode 0.7%float) as (_ & Hcls & _).
  repeat split; try done.
  unfold two_valued. rewrite Hcls. by intros [?|?].
Qed.

Lemma classification_three_valued_witness :
  ∃ res,
    result_of (analyze_repository bool Sample.engine_analyze true Sample.vscode
                 0.9%float) Sample.installed_analyzer = Return res
    ∧ res !! "classification" = Some (PStr "NEEDS_ATTENTION")
    ∧ two_valued res.
Proof.
  eexists. split; [reflexivity|]. split; [reflexivity|].
  exact (classification_three_valued bool Sample.engine_analyze true Sample.vscode
           0.9%float Sample.installed_analyzer _ eq_refl).
Defined.

(** C3 as stated fails: with the engine available the result has no
    [demo_mode] key. *)
Lemma engine_result_lacks_demo_mode :
  ∃ res,
    result_of (analyze_repository bool Sample.engine_analyze true Sample.vscode
                 0.7%float) Sample.installed_analyzer = Return res
    ∧ res !! "demo_mode" = None
    ∧ ¬ has_demo_mode_flag res.
Proof.
  eexists. split; [reflexivity|]. split; [reflexivity|].
  by intros [b Hb].
Qed.

Lemma demo_flags_by_path_witness :
  ∃ res,
    result_of (analyze_repository bool Sample.engine_analyze false Sample.vscode
                 0.7%float) Sample.bare_analyzer = Return res
    ∧ res !! "demo" = Some (PBool false)
    ∧ res !! "demo_mode" = Some (PBool true).
Proof.
  eexists. split; [reflexivity|].
  exact (proj2 (demo_flags_by_path bool Sample.engine_analyze false Sample.vscode
                  0.7%float Sample.bare_analyzer _ eq_refl)).
Defined.

Lemma demo_result_constant_witness :
  ∃ r1 r2,
    result_of (analyze_repository bool Sample.engine_analyze false Sample.vscode
                 0.7%float) Sample.bare_analyzer = Return r1
    ∧ result_of (analyze_repository bool Sample.engine_analyze true
                   "https://github.com/facebook/react" 0.7%float)
        Sample.bare_analyzer = Return r2
    ∧ delete "repository" r1 = delete "repository" r2
    ∧ r1 !! "repository" = Some (PStr Sample.vscode)
    ∧ r1 !! "M_score" = Some (PFloat 0.75%float)
    ∧ r1 !! "metrics" = Some (PDict (dict_display
        [("H", PFloat 0.8%float); ("V", PFloat 0.7%float);
         ("C", PFloat 0.6%float); ("A", PFloat 0.2%float)]))
    ∧ r1 !! "classification" = Some (PStr "DEMO_HEALTHY")
    ∧ r1 !! "recommendations"
      = Some (PList [PStr "Install repo-intelligence-core for full analysis"]).
Proof.
  apply (demo_result_constant bool Sample.engine_analyze false true Sample.vscode
           "https://github.com/facebook/react" 0.7%float Sample.bare_analyzer).
  reflexivity.
Defined.

(** C5 as stated fails: the score and the metrics of an engine that does
    not clamp them reach the caller as they are, outside [0, 1]. *)
Lemma unclamped_scores_passed_on :
  ∃ res,
    result_of (analyze_repository bool Sample.unclamped_engine true Sample.vscode
                 0.7%float) Sample.installed_analyzer = Return res
    ∧ res !! "M_score" = Some (PFloat 2.5%float)
    ∧ PrimFloat.leb 2.5%float 1%float = false
    ∧ metrics_of res = Some (1.5%float, 0.72%float, 0.68%float, (-0.25)%float)
    ∧ scores_in_range res = false.
Proof. eexists. by repeat split. Qed.

Lemma scores_by_path_witness :
  ∃ res,
    result_of (analyze_repository bool Sample.engine_analyze true Sample.vscode
                 0.7%float) Sample.installed_analyzer = Return res
    ∧ res !! "M_score" = Some (PFloat 0.782%float)
    ∧ scores_in_range res = true.
Proof.
  eexists. split; [reflexivity|]. split; [reflexivity|].
  destruct (scores_by_path bool Sample.engine_analyze true Sample.vscode
              0.7%float Sample.installed_analyzer _ eq_refl)
    as (r & Hr & _ & _ & ->).
  injection Hr as <-. reflexivity.
Defined.

(** C6 (amended): when the engine is unavailable [analyze_repository] is
    deterministic outright: the same URL and threshold give the demo
    result in any state of the world and whatever engine is at hand. When
    the engine is available the analyzer adds no dependence of its own:
    two calls give the same outcome and leave the same instance whenever
    the engine gives both the same answer, and nothing more is promised,
    since the engine sees the world. *)
Theorem determinism_by_path (World : Type)
  (engine1 engine2 : World → string → float → outcome pyval) (w1 w2 : World)
  (u : string) (t : float) (self : gmap string pyval) :
  match self !! "demo_available" with
  | Some v =>
      if truthy v then
        engine1 w1 u t = engine2 w2 u t →
        analyze_repository World engine1 w1 u t self
        = analyze_repository World engine2 w2 u t self
      else
        analyze_repository World engine1 w1 u t self = (Return (demo_result u t), self)
        ∧ analyze_repository World engine2 w2 u t self
          = (Return (demo_result u t), self)
  | None =>
      analyze_repository World engine1 w1 u t self
      = (Raise (AttributeError class_name "demo_available"), self)
      ∧ analyze_repository World engine2 w2 u t self
        = (Raise (AttributeError class_name "demo_available"), self)
  end.
Proof.
  unfold analyze_repository, bind, getattr, lift.
  destruct (self !! "demo_available") as [v|]; [|done].
  destruct (truthy v); simpl; [|done].
  by intros ->.
Qed.

(** C6 as stated fails: with an engine that reads the state of the world,
    the same URL and threshold on the same analyzer give "HEALTHY" at one
    moment and "NEEDS_ATTENTION" at another. *)
Lemma same_call_two_results :
  ∃ res1 res2,
    result_of (analyze_repository bool Sample.clock_engine true Sample.vscode
                 0.7%float) Sample.installed_analyzer = Return res1
    ∧ result_of (analyze_repository bool Sample.clock_engine false Sample.vscode
                   0.7%float) Sample.installed_analyzer = Return res2
    ∧ res1 !! "classification" = Some (PStr "HEALTHY")
    ∧ res2 !! "classification" = Some (PStr "NEEDS_ATTENTION")
    ∧ res1 ≠ res2.
Proof.
  eexists _, _. do 4 (split; [reflexivity|]).
  intros Heq. apply (f_equal (fun d => d !! "classification")) in Heq.
  vm_compute in Heq. discriminate Heq.
Qed.

Lemma determinism_by_path_witness :
  analyze_repository bool Sample.engine_analyze true Sample.vscode 0.7%float
    Sample.bare_analyzer
  = analyze_repository bool Sample.clock_engine false Sample.vscode 0.7%float
      Sample.bare_analyzer
  ∧ analyze_repository bool Sample.engine_analyze true Sample.vscode 0.7%float
      Sample.installed_analyzer
    = analyze_repository bool Sample.engine_analyze false Sample.vscode 0.7%float
        Sample.installed_analyzer.
Proof.
  split.
  - destruct (determinism_by_path bool Sample.engine_analyze Sample.clock_engine
                true false Sample.vscode 0.7%float Sample.bare_analyzer)
      as [-> ->].
    reflexivity.
  - exact (determinism_by_path bool Sample.engine_analyze Sample.engine_analyze
             true false Sample.vscode 0.7%float Sample.installed_analyzer eq_refl).
Defined.

(** C7 as stated fails: thresholds outside (0, 1] are accepted; without
    the engine the calls with thresholds 0.0, -1.0 and 1.5 all return a
    result, which echoes the threshold. *)
Lemma invalid_threshold_accepted :
  Forall (fun t =>
    valid_threshold t = false
    ∧ ∃ res,
        result_of (analyze_repository bool Sample.engine_analyze false Sample.vscode t)
          Sample.bare_analyzer = Return res
        ∧ res !! "threshold" = Some (PFloat t)
        ∧ res !! "classification" = Some (PStr "DEMO_HEALTHY"))
    [0%float; (-1)%float; 1.5%float].
Proof.
  repeat constructor; (eexists; split; [reflexivity|]; split; reflexivity).
Qed.

Lemma threshold_not_validated_witness :
  ∃ res,
    result_of (analyze_repository bool Sample.engine_analyze false Sample.vscode
                 1.5%float) Sample.bare_analyzer = Return res
    ∧ res !! "threshold" = Some (PFloat 1.5%float).
Proof.
  exact (threshold_not_validated bool Sample.engine_analyze false Sample.vscode
           1.5%float Sample.bare_analyzer).
Defined.

(** C8 as stated fails: without the engine all four metrics are within
    their bands and the recommendation list is not empty. *)
Lemma demo_result_in_band_with_recommendation :
  ∃ res,
    result_of (analyze_repository bool Sample.engine_analyze false Sample.vscode
                 0.7%float) Sample.bare_analyzer = Return res
    ∧ all_in_band res = true
    ∧ res !! "recommendations"
      = Some (PList [PStr "Install repo-intelligence-core for full analysis"])
    ∧ res !! "recommendations" ≠ Some (PList []).
Proof.
  eexists. split; [reflexivity|]. split; [reflexivity|]. split; [reflexivity|].
  intros Hrecs. vm_compute in Hrecs. discriminate Hrecs.
Qed.

Lemma recommendations_by_path_witness :
  ∃ res,
    result_of (analyze_repository bool
                 (Sample.banded_engine 0.8%float 0.7%float 0.6%float 0.2%float)
                 true Sample.vscode 0.7%float) Sample.installed_analyzer = Return res
    ∧ all_in_band res = true
    ∧ res !! "recommendations" = Some (PList []).
Proof.
  eexists. split; [reflexivity|]. split; [reflexivity|].
  destruct (recommendations_by_path bool
              (Sample.banded_engine 0.8%float 0.7%float 0.6%float 0.2%float)
              true Sample.vscode 0.7%float Sample.installed_analyzer _ eq_refl)
    as (r & Hr & _ & _ & Hempty).
  injection Hr as <-.
  apply Hempty; [reflexivity|].
  exists Sample.template, 5, 0.8%float, 0.7%float, 0.6%float, 0.2%float.
  split; reflexivity.
Defined.

(** * Further properties of the analyzer *)

#[local] Set Warnings "-clear-no-such-hyp".

Module MoreSample.

(** An engine whose answer has no [M_score] and no [recommendations]. *)
Definition scoreless_engine (_ : bool) (repo_url : string) (threshold : float)
  : outcome pyval :=
  Return (PDict (dict_display
    [("meets_threshold", PBool true);
     ("metrics", PDict (dict_display
        [("H", PFloat 0.5%float); ("V", PFloat 0.5%float);
         ("C", PFloat 0.5%float); ("A", PFloat 0.5%float)]))])).

(** An engine answering [None]. *)
Definition silent_engine (_ : bool) (repo_url : string) (threshold : float)
  : outcome pyval :=
  Return PNone.

End MoreSample.

(** The seven keys every result has. *)
Definition result_keys : gset string :=
  {[ "repository"; "classification"; "M_score"; "threshold"; "metrics";
     "recommendations"; "demo" ]}.

Lemma demo_result_dom (u : string) (t : float) :
  dom (demo_result u t) = result_keys ∪ {["demo_mode"]}.
Proof.
  unfold demo_result, dict_display, result_keys. cbn [foldl fst snd].
  rewrite !dom_insert_L, dom_empty_L. set_solver.
Qed.

Lemma engine_result_dom (u : string) (t : float) (mt m ms recs : pyval) :
  dom (engine_result u t mt m ms recs) = result_keys.
Proof.
  unfold engine_result, dict_display, result_keys. cbn [foldl fst snd].
  rewrite !dom_insert_L, dom_empty_L. set_solver.
Qed.

(** [get_engine_info] on any instance that has [demo_available]: it
    returns, leaving the instance alone, a dictionary that always has
    [engine] and [capabilities] and has exactly one of [version] (engine
    available) and [message] (engine unavailable), never both. Without the
    attribute it raises [AttributeError]. *)
Theorem engine_info_shape (self : gmap string pyval) :
  match self !! "demo_available" with
  | Some v =>
      ∃ info,
        get_engine_info self = (Return info, self)
        ∧ (∃ name, info !! "engine" = Some (PStr name))
        ∧ (∃ items, info !! "capabilities" = Some (PList items))
        ∧ if truthy v
          then dom info = {[ "engine"; "capabilities"; "version" ]}
               ∧ info !! "version" = Some (PStr "1.0.0")
          else dom info = {[ "engine"; "capabilities"; "message" ]}
               ∧ info !! "message"
                 = Some (PStr "Install repo-intelligence-core for full capabilities")
  | None =>
      get_engine_info self = (Raise (AttributeError class_name "demo_available"), self)
  end.
Proof.
  unfold get_engine_info, bind, getattr.
  destruct (self !! "demo_available") as [v|]; [|done].
  destruct (truthy v); eexists; (split; [reflexivity|]).
  - split; [by eexists|]. split; [by eexists|]. split; [|done].
    unfold dict_display. cbn [foldl fst snd].
    rewrite !dom_insert_L, dom_empty_L. set_solver.
  - split; [by eexists|]. split; [by eexists|]. split; [|done].
    unfold dict_display. cbn [foldl fst snd].
    rewrite !dom_insert_L, dom_empty_L. set_solver.
Qed.

Section Constructor.

Variable World : Type.
Variable import_demo : World -> outcome unit.

#[local] Abbreviation new_analyzer := (RepositoryAnalyzer World import_demo).

(** The constructor swallows [ImportError] and nothing else: a successful
    import gives an instance whose only attribute is
    [demo_available = True], an [ImportError] gives one with
    [demo_available = False], and any other exception raised by the import
    leaves the constructor as it is. *)
Theorem constructor_outcomes (w : World) :
  match import_demo w with
  | Return _ => new_analyzer w = Return {[ "demo_available" := PBool true ]}
  | Raise (ImportError _) =>
      new_analyzer w = Return {[ "demo_available" := PBool false ]}
  | Raise e => new_analyzer w = Raise e
  end.
Proof.
  unfold RepositoryAnalyzer, __init__, _check_demo_engine.
  unfold bind, try_except, lift, ret, setattr.
  destruct (import_demo w) as [[]|e]; simpl; [done|].
  by destruct e.
Qed.

End Constructor.

Section AnalyzerFacts.

Variable World : Type.
Variable engine_analyze : World -> string -> float -> outcome pyval.

#[local] Abbreviation analyze_with_engine := (analyze_repository World engine_analyze).

(** Whatever path is taken, a returned result echoes the URL and the
    threshold it was called with and has no [proprietary] key. Its keys
    are exactly the seven of [result_keys] when the engine answered, and
    those seven with [demo_mode] as an eighth when the engine is
    unavailable. *)
Theorem result_shape (w : World) (u : string) (t : float)
  (self res : gmap string pyval) :
  result_of (analyze_with_engine w u t) self = Return res →
  res !! "repository" = Some (PStr u)
  ∧ res !! "threshold" = Some (PFloat t)
  ∧ res !! "proprietary" = None
  ∧ match self !! "demo_available" with
    | Some v =>
        if truthy v
        then dom res = result_keys ∧ res !! "demo_mode" = None
        else dom res = result_keys ∪ {["demo_mode"]}
             ∧ res !! "demo_mode" = Some (PBool true)
    | None => False
    end.
Proof.
  intros Hres. apply analyze_repository_paths in Hres.
  destruct (self !! "demo_available") as [v|]; [|done].
  destruct (truthy v).
  - destruct Hres as (r & mt & m & ms & _ & _ & _ & _ & ->).
    destruct (engine_result_lookup u t mt m ms
                (default (PList []) (r !! "recommendations")))
      as (Hrepo & _ & _ & Hth & _ & _ & _ & Hmode).
    split; [done|]. split; [done|]. split.
    + apply not_elem_of_dom. rewrite engine_result_dom.
      unfold result_keys. set_solver.
    + split; [apply engine_result_dom | done].
  - subst res.
    destruct (demo_result_lookup u t) as (Hrepo & _ & _ & Hth & _ & _ & _ & Hmode).
    split; [done|]. split; [done|]. split.
    + apply not_elem_of_dom. rewrite demo_result_dom.
      unfold result_keys. set_solver.
    + split; [apply demo_result_dom | done].
Qed.

(** When the engine is consulted and answers with a dictionary, the keys
    [meets_threshold], [M_score] and [metrics] are required, and are read
    in that order: the first one missing raises [KeyError] with its name.
    [recommendations] alone is optional and defaults to the empty list. *)
Theorem engine_answer_keys (w : World) (u : string) (t : float)
  (self : gmap string pyval) (v : pyval) (r : gmap string pyval) :
  self !! "demo_available" = Some v → truthy v = true →
  engine_analyze w u t = Return (PDict r) →
  result_of (analyze_with_engine w u t) self
  = match r !! "meets_threshold", r !! "M_score", r !! "metrics" with
    | None, _, _ => Raise (KeyError "meets_threshold")
    | Some _, None, _ => Raise (KeyError "M_score")
    | Some _, Some _, None => Raise (KeyError "metrics")
    | Some mt, Some m, Some ms =>
        Return (engine_result u t mt m ms
                  (default (PList []) (r !! "recommendations")))
    end.
Proof.
  intros Hv Hflag Hr.
  unfold result_of, analyze_repository, bind, getattr, lift.
  rewrite Hv, Hflag, Hr. simpl.
  destruct (r !! "meets_threshold") as [mt|]; [|done].
  destruct (r !! "M_score") as [m|]; [|done].
  by destruct (r !! "metrics") as [ms|].
Qed.

(** When the engine is consulted and answers with anything but a
    dictionary ([None], a number, a string, a list), the call raises
    [TypeError] and the analyzer is left as it was. *)
Theorem engine_answer_not_a_dict (w : World) (u : string) (t : float)
  (self : gmap string pyval) (v answer : pyval) :
  self !! "demo_available" = Some v → truthy v = true →
  engine_analyze w u t = Return answer →
  (∀ r, answer ≠ PDict r) →
  ∃ msg, analyze_with_engine w u t self
         = (Raise (TypeError msg), self).
Proof.
  intros Hv Hflag Hanswer Hshape.
  unfold analyze_repository, bind, getattr, lift.
  rewrite Hv, Hflag, Hanswer. simpl.
  destruct answer; simpl; try by eexists.
  by destruct (Hshape d).
Qed.

(** What [get_engine_info] announces agrees with what [analyze_repository]
    does on the same instance: whenever an analysis returns, the engine
    information is available too, it carries a [version] exactly when the
    result came from the engine ([demo = True]) and a [message] exactly
    when the result is the demo result ([demo_mode = True]). *)
Theorem engine_info_matches_analysis (w : World) (u : string) (t : float)
  (self res : gmap string pyval) :
  result_of (analyze_with_engine w u t) self = Return res →
  ∃ info,
    result_of get_engine_info self = Return info
    ∧ (is_Some (info !! "version") ↔ res !! "demo" = Some (PBool true))
    ∧ (is_Some (info !! "message") ↔ res !! "demo_mode" = Some (PBool true)).
Proof.
  intros Hres. apply analyze_repository_paths in Hres.
  unfold result_of, get_engine_info, bind, getattr.
  destruct (self !! "demo_available") as [v|]; [|done].
  destruct (truthy v).
  - destruct Hres as (r & mt & m & ms & _ & _ & _ & _ & ->).
    destruct (engine_result_lookup u t mt m ms
                (default (PList []) (r !! "recommendations")))
      as (_ & _ & _ & _ & _ & _ & -> & ->).
    eexists. split; [reflexivity|]. split.
    + split; [done|]. intros _. by eexists.
    + split; [|done]. by intros [x Hx].
  - subst res.
    destruct (demo_result_lookup u t) as (_ & _ & _ & _ & _ & _ & -> & ->).
    eexists. split; [reflexivity|]. split.
    + split; [|done]. by intros [x Hx].
    + split; [done|]. intros _. by eexists.
Qed.

End AnalyzerFacts.

Lemma result_shape_witness :
  ∃ res,
    result_of (analyze_repository bool Sample.engine_analyze true Sample.vscode
                 0.7%float) Sample.installed_analyzer = Return res
    ∧ res !! "repository" = Some (PStr Sample.vscode)
    ∧ res !! "threshold" = Some (PFloat 0.7%float)
    ∧ res !! "proprietary" = None
    ∧ dom res = result_keys
    ∧ res !! "demo_mode" = None.
Proof.
  eexists. split; [reflexivity|].
  exact (result_shape bool Sample.engine_analyze true Sample.vscode 0.7%float
           Sample.installed_analyzer _ eq_refl).
Defined.

Lemma engine_answer_keys_witness :
  result_of (analyze_repository bool MoreSample.scoreless_engine true Sample.vscode
               0.7%float) Sample.installed_analyzer
  = Raise (KeyError "M_score").
Proof.
  exact (engine_answer_keys bool MoreSample.scoreless_engine true Sample.vscode
           0.7%float Sample.installed_analyzer (PBool true) _
           eq_refl eq_refl eq_refl).
Defined.

Lemma engine_answer_not_a_dict_witness :
  ∃ msg,
    analyze_repository bool MoreSample.silent_engine true Sample.vscode 0.7%float
      Sample.installed_analyzer
    = (Raise (TypeError msg), Sample.installed_analyzer).
Proof.
  apply (engine_answer_not_a_dict bool MoreSample.silent_engine true Sample.vscode
           0.7%float Sample.installed_analyzer (PBool true) PNone);
    [reflexivity | reflexivity | reflexivity | discriminate].
Defined.

Lemma engine_info_matches_analysis_witness :
  ∃ info,
    result_of get_engine_info Sample.bare_analyzer = Return info
    ∧ (is_Some (info !! "version")
       ↔ demo_result Sample.vscode 0.7%float !! "demo" = Some (PBool true))
    ∧ (is_Some (info !! "message")
       ↔ demo_result Sample.vscode 0.7%float !! "demo_mode" = Some (PBool true)).
Proof.
  exact (engine_info_matches_analysis bool Sample.engine_analyze false Sample.vscode
           0.7%float Sample.bare_analyzer (demo_result Sample.vscode 0.7%float)
           eq_refl).
Defined.

(** * The GitHub collector ([src/collectors/github_collector.py])

    The collector turns the objects of the GitHub client library into
    plain dictionaries. The client library itself is outside the sources:
    its objects are records of the attributes the collector reads, and a
    paginated listing is the items it delivers followed, possibly, by the
    exception that interrupts it. *)

(** ** Values, exceptions, strings *)

Inductive jval : Type :=
  | JNone
  | JBool (b : bool)
  | JInt (n : Z)
  | JStr (s : string)
  | JList (l : list jval)
  | JDict (d : gmap string jval).

Definition jdict (kvs : list (string * jval)) : gmap string jval :=
  foldl (fun d kv => <[kv.1 := kv.2]> d) ∅ kvs.

Inductive cexn : Type :=
  | ValueError (msg : string)
  | PlainException (msg : string)
  | NoneAttributeError (attr : string)
  | NoLenError (type_name : string)
  | ClientError (msg : string).

Inductive attempt (A : Type) : Type :=
  | Done (a : A)
  | Failed (e : cexn).
Arguments Done {A} a.
Arguments Failed {A} e.

(** [str(e)]. *)
Definition cexn_str (e : cexn) : string :=
  match e with
  | ValueError m => m
  | PlainException m => m
  | NoneAttributeError a => "'NoneType' object has no attribute '" +:+ a +:+ "'"
  | NoLenError ty => "object of type '" +:+ ty +:+ "' has no len()"
  | ClientError m => m
  end.

Definition slash : Ascii.ascii := Ascii.ascii_of_nat 47.

(** [s.lstrip(c)], [s.rstrip(c)] and [s.strip(c)] for a one-character [c]. *)
Fixpoint lstrip (c : Ascii.ascii) (s : string) : string :=
  match s with
  | EmptyString => EmptyString
  | String a s' => if Ascii.eqb a c then lstrip c s' else s
  end.

Fixpoint rstrip (c : Ascii.ascii) (s : string) : string :=
  match s with
  | EmptyString => EmptyString
  | String a s' =>
      match rstrip c s' with
      | EmptyString => if Ascii.eqb a c then EmptyString else String a EmptyString
      | String b r => String a (String b r)
      end
  end.

Definition strip (c : Ascii.ascii) (s : string) : string := rstrip c (lstrip c s).

(** [s.split(c)]: the pieces between the occurrences of [c]; never empty,
    [[""]] for the empty string. *)
Fixpoint split (c : Ascii.ascii) (s : string) : list string :=
  match s with
  | EmptyString => [EmptyString]
  | String a s' =>
      if Ascii.eqb a c then EmptyString :: split c s'
      else
        match split c s' with
        | p :: ps => String a p :: ps
        | [] => [String a EmptyString]
        end
  end.

(** [p in s] for strings: [p] occurs in [s] as a substring. *)
Fixpoint contains (p s : string) : bool :=
  String.prefix p s
  || match s with
     | EmptyString => false
     | String _ s' => contains p s'
     end.

(** [c in s] for a character. *)
Fixpoint has_char (c : Ascii.ascii) (s : string) : bool :=
  match s with
  | EmptyString => false
  | String a s' => Ascii.eqb a c || has_char c s'
  end.

(** ** The objects of the client library *)

(** A paginated listing: the items it yields, then the exception raised
    by the request that fails, if one does. *)
Record listing (A : Type) : Type := {
  items : list A;
  failure : option cexn
}.
Arguments items {A} _.
Arguments failure {A} _.

(** [l[:limit]]: iteration stops after [limit] items without asking for
    more, so a failure behind them is never met. *)
Definition slice {A} (limit : nat) (l : listing A) : listing A :=
  {| items := take limit (items l);
     failure := if (length (items l) <? limit)%nat then failure l else None |}.

(** Dates are kept as the string [isoformat()] gives. *)
Record git_author : Type := {
  ga_name : jval;
  ga_date : option string
}.

(** What [commit.files] is depends on the version of the client library:
    a list (or [None]) before PyGithub 2.5, and from 2.5 on a paginated
    list, an object that is always true and has no [len()]. *)
Inductive files_attribute : Type :=
  | FilesNone
  | FilesList (files : list jval)
  | FilesPaginated.

Record api_commit : Type := {
  commit_sha : jval;
  commit_git_author : option git_author;
  commit_author_login : option jval;
  commit_message : jval;
  commit_files : files_attribute;
  commit_stats : option (jval * jval)
}.

Record api_pull : Type := {
  pull_number : jval;
  pull_title : jval;
  pull_state : jval;
  pull_created_at : option string;
  pull_closed_at : option string;
  pull_merged_at : option string;
  pull_user_login : option jval;
  pull_get_reviews : listing jval;
  pull_comments : jval;
  pull_additions : jval;
  pull_deletions : jval;
  pull_changed_files : jval
}.

Record api_contributor : Type := {
  contributor_login : jval;
  contributor_contributions : jval;
  contributor_type : jval
}.

Record api_branch : Type := {
  branch_name : jval;
  branch_protected : jval;
  branch_commit_sha : jval
}.

Record api_issue : Type := {
  issue_number : jval;
  issue_title : jval;
  issue_state : jval;
  issue_pull_request : option jval;
  issue_created_at : option string;
  issue_closed_at : option string;
  issue_label_names : list jval;
  issue_comments : jval
}.

Record api_repo : Type := {
  repo_name : jval;
  repo_full_name : jval;
  repo_description : jval;
  repo_created_at : option string;
  repo_updated_at : option string;
  repo_language : jval;
  repo_size : jval;
  repo_stargazers_count : jval;
  repo_forks_count : jval;
  repo_open_issues_count : jval;
  repo_get_commits : listing api_commit;
  repo_get_pulls : listing api_pull;
  repo_get_contributors : listing api_contributor;
  repo_get_branches : listing api_branch;
  repo_get_issues : listing api_issue;
  repo_get_languages : attempt jval;
  repo_has_wiki : jval;
  repo_has_pages : jval;
  repo_has_projects : jval;
  repo_archived : jval;
  repo_disabled : jval;
  repo_default_branch : jval
}.

(** [d.isoformat() if d else None]. *)
Definition iso_or_none (d : option string) : jval :=
  match d with
  | Some s => JStr s
  | None => JNone
  end.

(** ** The loops of the collector

    Each getter runs [for x in listing: out.append(record(x))] inside
    [try ... except Exception as e: print(warning)] and returns [out]:
    records gathered before an exception are kept, the exception becomes
    one printed line. [body x] is [Done (Some r)] when the loop appends
    [r], [Done None] when it skips [x], and [Failed e] when it raises. *)
Fixpoint gather {A} (body : A -> attempt (option jval)) (xs : list A)
  (failure : option cexn) : list jval * option cexn :=
  match xs with
  | [] => ([], failure)
  | x :: xs' =>
      match body x with
      | Failed e => ([], Some e)
      | Done None => gather body xs' failure
      | Done (Some r) =>
          let (rs, f) := gather body xs' failure in (r :: rs, f)
      end
  end.

Definition guarded_loop {A} (warning : string) (body : A -> attempt (option jval))
  (l : listing A) : list jval * list string :=
  let (out, f) := gather body (items l) (failure l) in
  (out,
   match f with
   | Some e => [warning +:+ cexn_str e]
   | None => []
   end).

(** ** The class [GitHubCollector] *)

(** The truth value of an optional string: [None] and [""] are false. *)
Definition nonempty (s : option string) : bool :=
  match s with
  | Some (String _ _) => true
  | _ => false
  end.

(** The client: [Github(token)] or [Github()]. *)
Inductive github_client : Type :=
  | Github (token : option string).

(** [__init__(self, token=None)]; [getenv] is what
    [os.getenv("GITHUB_TOKEN")] returns. The result is [self.token] and
    [self.github]. *)
Definition collector_init (token getenv : option string)
  : option string * github_client :=
  let self_token := if nonempty token then token else getenv in
  (self_token, if nonempty self_token then Github self_token else Github None).

Definition _get_basic_info (repo : api_repo) : gmap string jval :=
  jdict
    [("name", repo_name repo);
     ("full_name", repo_full_name repo);
     ("description", repo_description repo);
     ("created_at", iso_or_none (repo_created_at repo));
     ("updated_at", iso_or_none (repo_updated_at repo));
     ("language", repo_language repo);
     ("size", repo_size repo);
     ("stars", repo_stargazers_count repo);
     ("forks", repo_forks_count repo);
     ("open_issues", repo_open_issues_count repo)].

(** [len(commit.files) if commit.files else 0]: [TypeError] on an object
    that is true and has no [len()]. *)
Definition files_changed (files : files_attribute) : attempt jval :=
  match files with
  | FilesNone => Done (JInt 0)
  | FilesList [] => Done (JInt 0)
  | FilesList (f :: fs) => Done (JInt (Z.of_nat (length (f :: fs))))
  | FilesPaginated => Failed (NoLenError "PaginatedList")
  end.

(** The body of the loop of [_get_commit_data]. The entries are evaluated
    in order: ["date"] reads [commit.commit.author.date] without testing
    [commit.commit.author], which raises on [None], and ["files_changed"],
    evaluated after it, raises where [commit.files] has no length. *)
Definition commit_record (commit : api_commit) : attempt (option jval) :=
  let author :=
    match commit_git_author commit with
    | Some a => ga_name a
    | None => JStr "Unknown"
    end in
  let author_login :=
    match commit_author_login commit with
    | Some login => login
    | None => JNone
    end in
  match commit_git_author commit with
  | None => Failed (NoneAttributeError "date")
  | Some a =>
      match files_changed (commit_files commit) with
      | Failed e => Failed e
      | Done changed =>
          Done (Some (JDict (jdict
            [("sha", commit_sha commit);
             ("author", author);
             ("author_login", author_login);
             ("date", iso_or_none (ga_date a));
             ("message", commit_message commit);
             ("files_changed", changed);
             ("additions",
                match commit_stats commit with
                | Some (additions, _) => additions
                | None => JInt 0
                end);
             ("deletions",
                match commit_stats commit with
                | Some (_, deletions) => deletions
                | None => JInt 0
                end)])))
      end
  end.

Definition _get_commit_data (repo : api_repo) (limit : nat)
  : list jval * list string :=
  guarded_loop "Warning: Could not fetch all commits: " commit_record
    (slice limit (repo_get_commits repo)).

(** The body of the loop of [_get_pr_data]; [len(list(pr.get_reviews()))]
    runs through the whole listing of reviews. *)
Definition pull_record (pr : api_pull) : attempt (option jval) :=
  match failure (pull_get_reviews pr) with
  | Some e => Failed e
  | None =>
      Done (Some (JDict (jdict
        [("number", pull_number pr);
         ("title", pull_title pr);
         ("state", pull_state pr);
         ("created_at", iso_or_none (pull_created_at pr));
         ("closed_at", iso_or_none (pull_closed_at pr));
         ("merged_at", iso_or_none (pull_merged_at pr));
         ("author",
            match pull_user_login pr with
            | Some login => login
            | None => JNone
            end);
         ("reviews", JInt (Z.of_nat (length (items (pull_get_reviews pr)))));
         ("comments", pull_comments pr);
         ("additions", pull_additions pr);
         ("deletions", pull_deletions pr);
         ("changed_files", pull_changed_files pr)])))
  end.

Definition _get_pr_data (repo : api_repo) (limit : nat) : list jval * list string :=
  guarded_loop "Warning: Could not fetch all PRs: " pull_record
    (slice limit (repo_get_pulls repo)).

Definition contributor_record (contributor : api_contributor)
  : attempt (option jval) :=
  Done (Some (JDict (jdict
    [("login", contributor_login contributor);
     ("contributions", contributor_contributions contributor);
     ("type", contributor_type contributor)]))).

Definition _get_contributor_data (repo : api_repo) : list jval * list string :=
  guarded_loop "Warning: Could not fetch contributors: " contributor_record
    (repo_get_contributors repo).

Definition branch_record (branch : api_branch) : attempt (option jval) :=
  Done (Some (JDict (jdict
    [("name", branch_name branch);
     ("protected", branch_protected branch);
     ("commit_sha", branch_commit_sha branch)]))).

Definition _get_branch_data (repo : api_repo) : list jval * list string :=
  guarded_loop "Warning: Could not fetch branches: " branch_record
    (repo_get_branches repo).

(** The body of the loop of [_get_issue_data]: an issue that is a pull
    request is skipped. *)
Definition issue_record (issue : api_issue) : attempt (option jval) :=
  match issue_pull_request issue with
  | Some _ => Done None
  | None =>
      Done (Some (JDict (jdict
        [("number", issue_number issue);
         ("title", issue_title issue);
         ("state", issue_state issue);
         ("created_at", iso_or_none (issue_created_at issue));
         ("closed_at", iso_or_none (issue_closed_at issue));
         ("labels", JList (issue_label_names issue));
         ("comments", issue_comments issue)])))
  end.

Definition _get_issue_data (repo : api_repo) (limit : nat)
  : list jval * list string :=
  guarded_loop "Warning: Could not fetch issues: " issue_record
    (slice limit (repo_get_issues repo)).

Definition _get_repo_stats (repo : api_repo) : gmap string jval * list string :=
  match repo_get_languages repo with
  | Done languages =>
      (jdict
         [("languages", languages);
          ("has_wiki", repo_has_wiki repo);
          ("has_pages", repo_has_pages repo);
          ("has_projects", repo_has_projects repo);
          ("archived", repo_archived repo);
          ("disabled", repo_disabled repo);
          ("default_branch", repo_default_branch repo)],
       [])
  | Failed e => (∅, ["Warning: Could not fetch repo stats: " +:+ cexn_str e])
  end.

Section Collector.

(** [urllib.parse.urlparse]: the [netloc] and the [path] of a URL, or the
    exception it raises. *)
Variable urlparse : string -> attempt (string * string).

(** [self.github.get_repo(repo_path)]. *)
Variable get_repo : github_client -> string -> attempt api_repo.

(** The whole body sits in [try ... except: return None]. *)
Definition _parse_repo_url (url : string) : option string :=
  match urlparse url with
  | Failed _ => None
  | Done (netloc, path) =>
      if negb (contains "github.com" netloc) then None
      else
        let path_parts := split slash (strip slash path) in
        match path_parts with
        | owner :: repo :: _ => Some (owner +:+ "/" +:+ repo)
        | _ => None
        end
  end.

(** The outcome and the lines printed. *)
Definition extract_repo_data (github : github_client) (repo_url : string)
  : attempt (gmap string jval) * list string :=
  let repo_path := _parse_repo_url repo_url in
  if negb (nonempty repo_path) then
    (Failed (ValueError ("Invalid GitHub URL: " +:+ repo_url)), [])
  else
    match get_repo github (default EmptyString repo_path) with
    | Failed e =>
        (Failed (PlainException
           ("Failed to collect data from " +:+ repo_url +:+ ": " +:+ cexn_str e)),
         [])
    | Done repo =>
        let basic_info := _get_basic_info repo in
        let (commits, w1) := _get_commit_data repo 500 in
        let (pull_requests, w2) := _get_pr_data repo 200 in
        let (contributors, w3) := _get_contributor_data repo in
        let (branches, w4) := _get_branch_data repo in
        let (issues, w5) := _get_issue_data repo 100 in
        let (repository_stats, w6) := _get_repo_stats repo in
        (Done (jdict
           [("basic_info", JDict basic_info);
            ("commits", JList commits);
            ("pull_requests", JList pull_requests);
            ("contributors", JList contributors);
            ("branches", JList branches);
            ("issues", JList issues);
            ("repository_stats", JDict repository_stats)]),
         (w1 ++ w2 ++ w3 ++ w4 ++ w5 ++ w6)%list)
    end.

End Collector.

(** ** Lemmas on the string operations *)

Lemma append_nil_l (s : string) : EmptyString +:+ s = s.
Proof. reflexivity. Qed.

Lemma append_cons (a : Ascii.ascii) (s t : string) :
  String a s +:+ t = String a (s +:+ t).
Proof. reflexivity. Qed.

Lemma append_assoc (a b c : string) : (a +:+ b) +:+ c = a +:+ (b +:+ c).
Proof.
  induction a as [|x a IH]; [done|]. rewrite !append_cons. by f_equal.
Qed.

Lemma prefix_append (p s : string) : String.prefix p (p +:+ s) = true.
Proof.
  induction p as [|a p IH]; [by destruct s|].
  rewrite append_cons. simpl. by destruct (Ascii.ascii_dec a a).
Qed.


Lemma contains_prefix (p s : string) :
  String.prefix p s = true → contains p s = true.
Proof. intros Hp. destruct s; cbn [contains]; by rewrite Hp. Qed.

Lemma contains_append (p pre post : string) :
  contains p (pre +:+ p +:+ post) = true.
Proof.
  induction pre as [|a pre IH].
  - rewrite append_nil_l. apply contains_prefix, prefix_append.
  - rewrite append_cons. cbn [contains]. rewrite IH. apply orb_true_r.
Qed.


Lemma has_char_append (c : Ascii.ascii) (a b : string) :
  has_char c (a +:+ b) = has_char c a || has_char c b.
Proof.
  induction a as [|x a IH]; [done|].
  rewrite append_cons. cbn [has_char]. by rewrite IH, orb_assoc.
Qed.

Lemma split_not_nil (c : Ascii.ascii) (s : string) : split c s ≠ [].
Proof.
  induction s as [|a s IH]; cbn [split]; [done|].
  destruct (Ascii.eqb a c); [done|]. by destruct (split c s).
Qed.

Lemma split_no_sep (c : Ascii.ascii) (s : string) :
  has_char c s = false → split c s = [s].
Proof.
  induction s as [|a s IH]; cbn [split has_char]; [done|].
  intros Hc. apply orb_false_iff in Hc as [Ha Hs].
  by rewrite Ha, (IH Hs).
Qed.

Lemma split_at_sep (c : Ascii.ascii) (a b : string) :
  has_char c a = false → split c (a +:+ String c b) = a :: split c b.
Proof.
  induction a as [|x a IH].
  - intros _. rewrite append_nil_l. cbn [split]. by rewrite Ascii.eqb_refl.
  - cbn [has_char]. intros Hc. apply orb_false_iff in Hc as [Hx Ha].
    rewrite append_cons. cbn [split]. by rewrite Hx, (IH Ha).
Qed.


(** The first piece of a string that does not start with the separator
    is not empty. *)
Lemma split_head (c a : Ascii.ascii) (s : string) :
  Ascii.eqb a c = false → ∃ p ps, split c (String a s) = String a p :: ps.
Proof.
  intros Ha. cbn [split]. rewrite Ha.
  destruct (split c s) as [|p ps]; by eexists _, _.
Qed.

Lemma lstrip_all (c : Ascii.ascii) (lead s : string) :
  lstrip c lead = EmptyString → lstrip c (lead +:+ s) = lstrip c s.
Proof.
  induction lead as [|a lead IH]; [done|].
  rewrite append_cons. cbn [lstrip]. by destruct (Ascii.eqb a c).
Qed.

Lemma lstrip_head (c : Ascii.ascii) (s : string) :
  lstrip c s = EmptyString
  ∨ ∃ a s', lstrip c s = String a s' ∧ Ascii.eqb a c = false.
Proof.
  induction s as [|a s IH]; cbn [lstrip]; [by left|].
  destruct (Ascii.eqb a c) eqn:Ha; [done|]. right. by exists a, s.
Qed.

Lemma rstrip_head (c a : Ascii.ascii) (s : string) :
  rstrip c (String a s) = EmptyString ∨ ∃ r, rstrip c (String a s) = String a r.
Proof.
  cbn [rstrip]. destruct (rstrip c s); [|right; by eexists].
  destruct (Ascii.eqb a c); [by left | right; by eexists].
Qed.

Lemma rstrip_keeps_head (c a : Ascii.ascii) (s : string) :
  Ascii.eqb a c = false → ∃ r, rstrip c (String a s) = String a r.
Proof.
  intros Ha. cbn [rstrip]. destruct (rstrip c s); [|by eexists].
  rewrite Ha. by eexists.
Qed.

Lemma rstrip_no_sep (c : Ascii.ascii) (s : string) :
  has_char c s = false → rstrip c s = s.
Proof.
  induction s as [|a s IH]; cbn [rstrip has_char]; [done|].
  intros Hc. apply orb_false_iff in Hc as [Ha Hs].
  rewrite (IH Hs). destruct s; [by rewrite Ha | done].
Qed.

Lemma rstrip_append (c : Ascii.ascii) (a b : string) :
  rstrip c (a +:+ b)
  = match rstrip c b with
    | EmptyString => rstrip c a
    | String x r => a +:+ String x r
    end.
Proof.
  induction a as [|y a IH].
  - rewrite append_nil_l. by destruct (rstrip c b).
  - rewrite append_cons. cbn [rstrip]. rewrite IH.
    destruct (rstrip c b) as [|x r]; [done|].
    rewrite append_cons. by destruct a.
Qed.

Lemma append_nil_r (s : string) : s +:+ EmptyString = s.
Proof. induction s as [|a s IH]; [done|]. rewrite append_cons. by f_equal. Qed.

Lemma lstrip_id (c a : Ascii.ascii) (s : string) :
  Ascii.eqb a c = false → lstrip c (String a s) = String a s.
Proof. intros Ha. cbn [lstrip]. by rewrite Ha. Qed.

Lemma rstrip_after (c : Ascii.ascii) (a rest : string) :
  rstrip c a = a → rstrip c (a +:+ rest) = a +:+ rstrip c rest.
Proof.
  intros Ha. rewrite rstrip_append.
  destruct (rstrip c rest); [by rewrite append_nil_r | done].
Qed.

(** Stripping and splitting a path [/owner/repo...]. *)
Lemma split_strip_owner_repo (lead owner repo rest : string) :
  lstrip slash lead = EmptyString →
  owner ≠ EmptyString → has_char slash owner = false →
  repo ≠ EmptyString → has_char slash repo = false →
  rest = EmptyString ∨ (∃ r, rest = String slash r) →
  ∃ tail,
    split slash (strip slash (lead +:+ owner +:+ "/" +:+ repo +:+ rest))
    = owner :: repo :: tail.
Proof.
  intros Hlead Howner Hofree Hrepo Hrfree Hrest.
  change ("/" +:+ repo +:+ rest) with (String slash (repo +:+ rest)).
  unfold strip. rewrite (lstrip_all _ _ _ Hlead).
  destruct owner as [|a o]; [done|].
  pose proof Hofree as Hofree'. cbn [has_char] in Hofree'.
  apply orb_false_iff in Hofree' as [Ha _].
  rewrite append_cons, (lstrip_id _ _ _ Ha), <- append_cons.
  assert (rstrip slash (String a o +:+ String slash repo)
          = String a o +:+ String slash repo) as Hbody.
  { replace (String a o +:+ String slash repo)
      with ((String a o +:+ String slash EmptyString) +:+ repo)
      by (by rewrite append_assoc).
    rewrite rstrip_append, (rstrip_no_sep _ _ Hrfree).
    by destruct repo. }
  replace (String a o +:+ String slash (repo +:+ rest))
    with ((String a o +:+ String slash repo) +:+ rest)
    by (by rewrite append_assoc).
  rewrite (rstrip_after _ _ _ Hbody), append_assoc, (append_cons slash repo).
  rewrite (split_at_sep _ _ _ Hofree).
  assert (rstrip slash rest = EmptyString ∨ ∃ r', rstrip slash rest = String slash r')
    as [->|[r' ->]].
  { destruct Hrest as [->|[r ->]]; [by left|]. apply rstrip_head. }
  - rewrite append_nil_r, (split_no_sep _ _ Hrfree). by eexists.
  - rewrite (split_at_sep _ _ _ Hrfree). by eexists.
Qed.


(** ** Lemmas on the loops *)

Lemma gather_length {A} (body : A → attempt (option jval)) (xs : list A)
  (f : option cexn) :
  (length (gather body xs f).1 ≤ length xs)%nat.
Proof.
  induction xs as [|x xs IH]; simpl; [done|].
  destruct (body x) as [[r|]|e]; simpl; [|lia..].
  destruct (gather body xs f) as [rs f']. simpl in *. lia.
Qed.

(** When the body never skips an item, the records are those of a prefix
    of the items, in order. *)
Lemma gather_prefix {A} (body : A → attempt (option jval)) (xs : list A)
  (f : option cexn) :
  (∀ x, body x ≠ Done None) →
  Forall2 (fun x r => body x = Done (Some r))
    (take (length (gather body xs f).1) xs) (gather body xs f).1.
Proof.
  intros Hskip. induction xs as [|x xs IH]; simpl; [constructor|].
  destruct (body x) as [[r|]|e] eqn:Hx; simpl.
  - destruct (gather body xs f) as [rs f']. simpl in *. by constructor.
  - by destruct (Hskip x).
  - constructor.
Qed.

Lemma gather_finished {A} (body : A → attempt (option jval)) (xs : list A)
  (f : option cexn) :
  (∀ x, body x ≠ Done None) →
  (gather body xs f).2 = None →
  length (gather body xs f).1 = length xs.
Proof.
  intros Hskip. induction xs as [|x xs IH]; simpl; [done|].
  destruct (body x) as [[r|]|e] eqn:Hx; simpl.
  - destruct (gather body xs f) as [rs f']. simpl in *. intros ->. by rewrite IH.
  - by destruct (Hskip x).
  - done.
Qed.

(** The loop stops at the first item on which the body raises. *)
Lemma gather_stops {A} (body : A → attempt (option jval)) (xs : list A)
  (f : option cexn) (i : nat) (x : A) (e : cexn) :
  (∀ j y, (j < i)%nat → xs !! j = Some y → ∃ r, body y = Done (Some r)) →
  xs !! i = Some x → body x = Failed e →
  length (gather body xs f).1 = i ∧ (gather body xs f).2 = Some e.
Proof.
  revert i. induction xs as [|y xs IH]; intros i Hbefore Hi Hx; [done|].
  destruct i as [|i]; simpl in *.
  - injection Hi as ->. by rewrite Hx.
  - destruct (Hbefore 0 y) as [r Hr]; [lia|done|]. rewrite Hr.
    destruct (IH i) as [Hlen Hf]; [|done|done|].
    { intros j z Hj Hz. apply (Hbefore (S j) z); [lia|done]. }
    destruct (gather body xs f) as [rs f']. simpl in *. by rewrite Hlen.
Qed.

(** The loop gets past every item the body records. *)
Lemma gather_at_least {A} (body : A → attempt (option jval)) (xs : list A)
  (f : option cexn) (n : nat) :
  (∀ j y, (j < n)%nat → xs !! j = Some y → ∃ r, body y = Done (Some r)) →
  (n ≤ length xs)%nat →
  (n ≤ length (gather body xs f).1)%nat.
Proof.
  revert n. induction xs as [|x xs IH]; intros n Hrec Hn; simpl in *; [lia|].
  destruct n as [|n]; [lia|].
  destruct (Hrec 0%nat x) as [r Hr]; [lia|done|]. rewrite Hr.
  specialize (IH n). destruct (gather body xs f) as [rs f']. simpl in *.
  assert (n ≤ length rs)%nat; [|lia].
  apply IH; [|lia]. intros j y Hj Hy. apply (Hrec (S j) y); [lia|done].
Qed.

(** A body that neither skips nor raises handles every item. *)
Lemma gather_total {A} (body : A → attempt (option jval)) (record : A → jval)
  (xs : list A) (f : option cexn) :
  (∀ x, body x = Done (Some (record x))) →
  gather body xs f = (record <$> xs, f).
Proof.
  intros Hbody. induction xs as [|x xs IH]; simpl; [done|].
  by rewrite Hbody, IH.
Qed.

(** A body that never raises keeps exactly the items it does not skip. *)
Lemma gather_filter {A} (body : A → attempt (option jval)) (keep : A → bool)
  (xs : list A) (f : option cexn) :
  (∀ x, if keep x then ∃ r, body x = Done (Some r) else body x = Done None) →
  length (gather body xs f).1 = length (List.filter keep xs)
  ∧ (gather body xs f).2 = f.
Proof.
  intros Hbody. induction xs as [|x xs IH]; simpl; [done|].
  specialize (Hbody x). destruct (keep x).
  - destruct Hbody as [r ->]. destruct (gather body xs f) as [rs f'].
    simpl in *. destruct IH as [-> ->]. done.
  - by rewrite Hbody.
Qed.

Lemma guarded_loop_warnings {A} (warning : string)
  (body : A → attempt (option jval)) (l : listing A) :
  (length (guarded_loop warning body l).2 ≤ 1)%nat.
Proof.
  unfold guarded_loop. destruct (gather body (items l) (failure l)) as [out [e|]];
    simpl; lia.
Qed.

Lemma commit_record_no_skip (c : api_commit) : commit_record c ≠ Done None.
Proof.
  unfold commit_record. destruct (commit_git_author c); [|done].
  by destruct (files_changed (commit_files c)).
Qed.

Lemma pull_record_no_skip (pr : api_pull) : pull_record pr ≠ Done None.
Proof. unfold pull_record. by destruct (failure (pull_get_reviews pr)). Qed.


(** ** Properties of [_parse_repo_url] and [extract_repo_data] *)

Section CollectorFacts.

Variable urlparse : string -> attempt (string * string).
Variable get_repo : github_client -> string -> attempt api_repo.

#[local] Abbreviation parse_url := (_parse_repo_url urlparse).
#[local] Abbreviation extract := (extract_repo_data urlparse get_repo).


(** [_parse_repo_url] recognises [owner/repo] in any URL whose host
    contains "github.com" anywhere (the host test is a substring test) and
    whose path is [/owner/repo], with any number of leading slashes and
    with nothing, a trailing slash or further segments after it. *)
Theorem parse_repo_url_owner_repo
  (url netloc path pre post lead owner repo rest : string) :
  urlparse url = Done (netloc, path) →
  netloc = pre +:+ "github.com" +:+ post →
  path = lead +:+ owner +:+ "/" +:+ repo +:+ rest →
  lstrip slash lead = EmptyString →
  owner ≠ EmptyString → has_char slash owner = false →
  repo ≠ EmptyString → has_char slash repo = false →
  rest = EmptyString ∨ (∃ r, rest = String slash r) →
  parse_url url = Some (owner +:+ "/" +:+ repo).
Proof.
  intros Hparse -> -> Hlead Howner Hofree Hrepo Hrfree Hrest.
  unfold _parse_repo_url. rewrite Hparse, contains_append. cbn [negb].
  by destruct (split_strip_owner_repo lead owner repo rest
                 Hlead Howner Hofree Hrepo Hrfree Hrest) as [tail ->].
Qed.


End CollectorFacts.

(** ** Properties of the getters *)

Lemma commit_data_prefix (repo : api_repo) (limit : nat) :
  Forall2 (fun c r => commit_record c = Done (Some r))
    (take (length (_get_commit_data repo limit).1) (items (repo_get_commits repo)))
    (_get_commit_data repo limit).1
  ∧ (length (_get_commit_data repo limit).1 ≤ limit)%nat.
Proof.
  unfold _get_commit_data, guarded_loop, slice. simpl.
  set (commits := items (repo_get_commits repo)).
  set (f := if (length commits <? limit)%nat
            then failure (repo_get_commits repo) else None).
  pose proof (gather_prefix commit_record (take limit commits) f
                commit_record_no_skip) as Hpre.
  pose proof (gather_length commit_record (take limit commits) f) as Hlen.
  destruct (gather commit_record (take limit commits) f) as [rs f'].
  simpl in *. rewrite length_take in Hlen.
  rewrite take_take in Hpre.
  replace (length rs `min` limit)%nat with (length rs) in Hpre by lia.
  split; [done|lia].
Qed.

(** [_get_commit_data] never raises. It returns at most [limit] records;
    they are the records of a prefix of the commits listed, in listing
    order; at most one warning is printed; and when none is printed
    nothing is missing: there are [min limit n] records for [n] commits
    listed. *)
Theorem commit_data_bounded_prefix (repo : api_repo) (limit : nat) :
  let commits := items (repo_get_commits repo) in
  let out := _get_commit_data repo limit in
  (length out.1 ≤ limit)%nat
  ∧ Forall2 (fun c r => commit_record c = Done (Some r))
      (take (length out.1) commits) out.1
  ∧ (length out.2 ≤ 1)%nat
  ∧ (out.2 = [] → length out.1 = (limit `min` length commits)%nat).
Proof.
  intros commits out. unfold out, commits.
  destruct (commit_data_prefix repo limit) as [Hpre Hlen].
  split; [done|]. split; [done|].
  split; [apply guarded_loop_warnings|].
  unfold _get_commit_data, guarded_loop, slice. simpl.
  set (f := if (length (items (repo_get_commits repo)) <? limit)%nat
            then failure (repo_get_commits repo) else None).
  pose proof (gather_finished commit_record
                (take limit (items (repo_get_commits repo))) f
                commit_record_no_skip) as Hfin.
  destruct (gather commit_record _ f) as [rs [e|]]; simpl in *; [done|].
  intros _. by rewrite Hfin, length_take.
Qed.

(** The collection of commits ends at the first commit that cannot be
    recorded, and the commits before it are returned with one warning. A
    commit without a git author is such a commit, whatever its files: it
    is not recorded with the author "Unknown", reading the date of [None]
    raises [AttributeError]. A commit with an author whose [files] object
    has no [len()] is another: it raises [TypeError], so with a client
    library that lists files by pages the first commit already ends the
    collection. *)
Theorem commit_collection_stops (repo : api_repo) (limit i : nat)
  (c : api_commit) :
  items (repo_get_commits repo) !! i = Some c →
  (∀ j c', (j < i)%nat → items (repo_get_commits repo) !! j = Some c' →
           is_Some (commit_git_author c') ∧ commit_files c' ≠ FilesPaginated) →
  (i < limit)%nat →
  match commit_git_author c, commit_files c with
  | None, _ =>
      length (_get_commit_data repo limit).1 = i
      ∧ (_get_commit_data repo limit).2
        = ["Warning: Could not fetch all commits: 'NoneType' object has no attribute 'date'"]
  | Some _, FilesPaginated =>
      length (_get_commit_data repo limit).1 = i
      ∧ (_get_commit_data repo limit).2
        = ["Warning: Could not fetch all commits: object of type 'PaginatedList' has no len()"]
  | Some _, _ => (i < length (_get_commit_data repo limit).1)%nat
  end.
Proof.
  intros Hi Hbefore Hlimit.
  assert (∀ j c', (j < i)%nat →
            take limit (items (repo_get_commits repo)) !! j = Some c' →
            ∃ r, commit_record c' = Done (Some r)) as Hrecorded.
  { intros j c' Hj Hc'. rewrite lookup_take_lt in Hc' by lia.
    destruct (Hbefore j c' Hj Hc') as [[a Ha] Hfiles].
    unfold commit_record. rewrite Ha.
    destruct (commit_files c') as [|[|f fs]|]; simpl; [by eexists..|done]. }
  assert (take limit (items (repo_get_commits repo)) !! i = Some c) as Hi'
    by by rewrite lookup_take_lt.
  set (f := if (length (items (repo_get_commits repo)) <? limit)%nat
            then failure (repo_get_commits repo) else None).
  assert (∀ e, commit_record c = Failed e →
            length (_get_commit_data repo limit).1 = i
            ∧ (_get_commit_data repo limit).2
              = ["Warning: Could not fetch all commits: " +:+ cexn_str e])
    as Hstop.
  { intros e He. unfold _get_commit_data, guarded_loop, slice. simpl.
    destruct (gather_stops commit_record
                (take limit (items (repo_get_commits repo))) f i c e
                Hrecorded Hi' He) as [Hlen Hf].
    fold f. destruct (gather commit_record _ f) as [rs f']. simpl in *.
    by subst. }
  assert ((∃ r, commit_record c = Done (Some r)) →
          (i < length (_get_commit_data repo limit).1)%nat) as Hgoes.
  { intros Hc. unfold _get_commit_data, guarded_loop, slice. simpl. fold f.
    pose proof (gather_at_least commit_record
                  (take limit (items (repo_get_commits repo))) f (S i)) as Hmin.
    destruct (gather commit_record _ f) as [rs f']. simpl in *.
    apply Hmin.
    - intros j y Hj Hy. destruct (decide (j = i)) as [->|Hne].
      + rewrite Hi' in Hy. by injection Hy as <-.
      + apply (Hrecorded j y); [lia|done].
    - apply lookup_lt_Some in Hi'. lia. }
  destruct (commit_git_author c) as [a|] eqn:Ha.
  - destruct (commit_files c) as [|[|file files]|] eqn:Hfiles.
    + apply Hgoes. unfold commit_record. rewrite Ha, Hfiles. by eexists.
    + apply Hgoes. unfold commit_record. rewrite Ha, Hfiles. by eexists.
    + apply Hgoes. unfold commit_record. rewrite Ha, Hfiles. by eexists.
    + apply (Hstop (NoLenError "PaginatedList")).
      unfold commit_record. by rewrite Ha, Hfiles.
  - apply (Hstop (NoneAttributeError "date")).
    unfold commit_record. by rewrite Ha.
Qed.

(** Every record [_get_commit_data] returns names a git author that is
    present: its ["author"] entry is the name of the author of a listed
    commit, and its ["date"] entry is that author's date or [None]. *)
Theorem commit_author_never_defaulted (repo : api_repo) (limit : nat) :
  Forall (fun r =>
    ∃ c a d,
      c ∈ items (repo_get_commits repo)
      ∧ commit_git_author c = Some a
      ∧ r = JDict d
      ∧ d !! "sha" = Some (commit_sha c)
      ∧ d !! "author" = Some (ga_name a)
      ∧ d !! "date" = Some (iso_or_none (ga_date a)))
    (_get_commit_data repo limit).1.
Proof.
  destruct (commit_data_prefix repo limit) as [Hpre _].
  apply Forall_forall. intros r Hr.
  apply list_elem_of_lookup in Hr as [k Hk].
  destruct (Forall2_lookup_r _ _ _ _ _ Hpre Hk) as (c & Hc & Hrec).
  apply lookup_take_Some in Hc as [Hc _].
  unfold commit_record in Hrec.
  destruct (commit_git_author c) as [a|] eqn:Ha; [|done].
  destruct (files_changed (commit_files c)) as [changed|e]; [|done].
  injection Hrec as <-.
  exists c, a. eexists. split; [by eapply list_elem_of_lookup_2|].
  split; [exact Ha|]. split; [reflexivity|]. by repeat split.
Qed.

(** An issue that is not a pull request. *)
Definition plain_issue (issue : api_issue) : bool :=
  match issue_pull_request issue with
  | None => true
  | Some _ => false
  end.

(** [_get_issue_data] applies the limit before it leaves the pull
    requests out: the records are those of the plain issues among the
    first [limit] entries of the listing, so there can be fewer than
    [limit] of them even when the listing holds more issues; none is a
    pull request, and a warning is printed exactly when the listing fails
    within the limit. *)
Theorem issue_data_limit_then_filter (repo : api_repo) (limit : nat) :
  let listed := items (repo_get_issues repo) in
  let out := _get_issue_data repo limit in
  length out.1 = length (List.filter plain_issue (take limit listed))
  ∧ (length out.1 ≤ limit)%nat
  ∧ (out.2 = [] ↔
     (length listed <? limit)%nat = false ∨ failure (repo_get_issues repo) = None).
Proof.
  intros listed out. unfold out, _get_issue_data, guarded_loop, slice. simpl.
  fold listed.
  set (f := if (length listed <? limit)%nat
            then failure (repo_get_issues repo) else None).
  destruct (gather_filter issue_record plain_issue (take limit listed) f)
    as [Hlen Hf].
  { intros x. unfold issue_record, plain_issue.
    destruct (issue_pull_request x); [done|by eexists]. }
  destruct (gather issue_record (take limit listed) f) as [rs f'].
  simpl in *. subst f'. split; [done|]. split.
  - rewrite Hlen.
    pose proof (List.filter_length_le plain_issue (take limit listed)) as Hle.
    rewrite length_take in Hle. lia.
  - unfold f. destruct (length listed <? limit)%nat.
    + destruct (failure (repo_get_issues repo)); split; try done.
      * intros [?|?]; done.
      * by right.
    + split; [by left|done].
Qed.

(** [_get_pr_data] returns at most [limit] records, those of a prefix of
    the pull requests listed; the ["reviews"] entry of each is the number
    of reviews of its pull request, whose listing of reviews was read to
    the end without failure. *)
Theorem pr_data_review_counts (repo : api_repo) (limit : nat) :
  let out := _get_pr_data repo limit in
  (length out.1 ≤ limit)%nat
  ∧ Forall2 (fun pr r =>
       failure (pull_get_reviews pr) = None
       ∧ ∃ d, r = JDict d
              ∧ d !! "number" = Some (pull_number pr)
              ∧ d !! "reviews"
                = Some (JInt (Z.of_nat (length (items (pull_get_reviews pr))))))
      (take (length out.1) (items (repo_get_pulls repo))) out.1.
Proof.
  intros out. unfold out, _get_pr_data, guarded_loop, slice. simpl.
  set (pulls := items (repo_get_pulls repo)).
  set (f := if (length pulls <? limit)%nat
            then failure (repo_get_pulls repo) else None).
  pose proof (gather_prefix pull_record (take limit pulls) f
                pull_record_no_skip) as Hpre.
  pose proof (gather_length pull_record (take limit pulls) f) as Hlen.
  destruct (gather pull_record (take limit pulls) f) as [rs f'].
  simpl in *. rewrite length_take in Hlen. rewrite take_take in Hpre.
  replace (length rs `min` limit)%nat with (length rs) in Hpre by lia.
  split; [lia|].
  eapply Forall2_impl; [exact Hpre|].
  intros pr r Hrec. unfold pull_record in Hrec.
  destruct (failure (pull_get_reviews pr)); [done|].
  injection Hrec as <-. split; [done|]. eexists. by repeat split.
Qed.

(** A pull request whose reviews cannot be listed ends the collection of
    pull requests: the first one within the limit leaves only the pull
    requests before it, and its exception in the warning. *)
Theorem pr_data_stops_at_failed_reviews (repo : api_repo) (limit i : nat)
  (pr : api_pull) (e : cexn) :
  items (repo_get_pulls repo) !! i = Some pr →
  failure (pull_get_reviews pr) = Some e →
  (∀ j pr', (j < i)%nat → items (repo_get_pulls repo) !! j = Some pr' →
            failure (pull_get_reviews pr') = None) →
  (i < limit)%nat →
  length (_get_pr_data repo limit).1 = i
  ∧ (_get_pr_data repo limit).2
    = ["Warning: Could not fetch all PRs: " +:+ cexn_str e].
Proof.
  intros Hi Hfail Hbefore Hlimit.
  unfold _get_pr_data, guarded_loop, slice. simpl.
  destruct (gather_stops pull_record (take limit (items (repo_get_pulls repo)))
              (if (length (items (repo_get_pulls repo)) <? limit)%nat
               then failure (repo_get_pulls repo) else None)
              i pr e) as [Hlen Hf].
  - intros j pr' Hj Hpr'. rewrite lookup_take_lt in Hpr' by lia.
    unfold pull_record. rewrite (Hbefore j pr' Hj Hpr'). by eexists.
  - by rewrite lookup_take_lt.
  - unfold pull_record. by rewrite Hfail.
  - destruct (gather pull_record _ _) as [rs f]. simpl in *. by subst.
Qed.

(** [_get_contributor_data] and [_get_branch_data] have no limit and lose
    nothing: there is one record for each item the listing delivered, in
    order, and a warning is printed exactly when the listing failed. *)
Theorem contributor_and_branch_data_complete (repo : api_repo) :
  (_get_contributor_data repo).1
  = (fun c => JDict (jdict [("login", contributor_login c);
                            ("contributions", contributor_contributions c);
                            ("type", contributor_type c)]))
    <$> items (repo_get_contributors repo)
  ∧ ((_get_contributor_data repo).2 = [] ↔ failure (repo_get_contributors repo) = None)
  ∧ (_get_branch_data repo).1
    = (fun b => JDict (jdict [("name", branch_name b);
                              ("protected", branch_protected b);
                              ("commit_sha", branch_commit_sha b)]))
      <$> items (repo_get_branches repo)
  ∧ ((_get_branch_data repo).2 = [] ↔ failure (repo_get_branches repo) = None).
Proof.
  unfold _get_contributor_data, _get_branch_data, guarded_loop.
  rewrite (gather_total contributor_record _ _ _ (fun _ => eq_refl)).
  rewrite (gather_total branch_record _ _ _ (fun _ => eq_refl)).
  simpl. repeat split; try done.
  - by destruct (failure (repo_get_contributors repo)).
  - by intros ->.
  - by destruct (failure (repo_get_branches repo)).
  - by intros ->.
Qed.

(** [__init__]: a token given explicitly wins over the environment unless
    it is empty; an empty token, like no token, falls back on
    [GITHUB_TOKEN]; and the client is anonymous exactly when neither
    source gives a non-empty token. The client never gets an empty
    token. *)
Theorem collector_token_choice (token getenv : option string) :
  let self_token := (collector_init token getenv).1 in
  let client := (collector_init token getenv).2 in
  (nonempty token = true → self_token = token ∧ client = Github token)
  ∧ (nonempty token = false → self_token = getenv)
  ∧ (client = Github None ↔ nonempty token = false ∧ nonempty getenv = false)
  ∧ (∀ t, client = Github (Some t) → t ≠ EmptyString).
Proof.
  unfold collector_init.
  destruct token as [[|a t]|], getenv as [[|b g]|]; simpl;
    repeat split; try done; try (by intros [? ?]); by intros t' [= <-].
Qed.

(** ** Properties of [extract_repo_data] *)

Section ExtractFacts.

Variable urlparse : string -> attempt (string * string).
Variable get_repo : github_client -> string -> attempt api_repo.

#[local] Abbreviation parse_url := (_parse_repo_url urlparse).
#[local] Abbreviation extract := (extract_repo_data urlparse get_repo).

Lemma parse_repo_url_nonempty (url s : string) :
  parse_url url = Some s → nonempty (Some s) = true.
Proof.
  unfold _parse_repo_url.
  destruct (urlparse url) as [[netloc path]|e]; [|done].
  destruct (contains "github.com" netloc); simpl; [|done].
  unfold strip.
  destruct (lstrip_head slash path) as [Hl|(a & s' & Hl & Ha)]; rewrite Hl.
  { done. }
  destruct (rstrip_keeps_head slash a s' Ha) as [r ->].
  destruct (split_head slash a r Ha) as (p & ps & ->).
  destruct ps as [|repo ps]; [done|]. by intros [= <-].
Qed.

(** [extract_repo_data] raises [ValueError("Invalid GitHub URL: ...")]
    exactly when [_parse_repo_url] gives [None]. The error is raised before
    the client is used: it is the same for every client and every answer
    of GitHub, it is not wrapped, and nothing is printed. *)
Theorem extract_invalid_url (github : github_client) (url : string) :
  extract github url = (Failed (ValueError ("Invalid GitHub URL: " +:+ url)), [])
  ↔ parse_url url = None.
Proof.
  unfold extract_repo_data. cbv zeta.
  destruct (parse_url url) as [s|] eqn:Hparse; [|done].
  rewrite (parse_repo_url_nonempty url s Hparse). simpl.
  split; [|done].
  destruct (get_repo github s) as [repo|e]; [|done].
  destruct (_get_commit_data repo 500), (_get_pr_data repo 200),
    (_get_contributor_data repo), (_get_branch_data repo),
    (_get_issue_data repo 100), (_get_repo_stats repo). done.
Qed.

(** Once the URL parses, everything rests on [get_repo]. If it raises,
    the exception is wrapped in
    [Exception("Failed to collect data from <url>: <error>")]. If it
    returns, [extract_repo_data] returns too, whatever fails while
    listing: the result has exactly seven keys, with at most 500 commits,
    200 pull requests and 100 issues, and the failures show as at most six
    printed warnings. *)
Theorem extract_outcome (github : github_client) (url path : string) :
  parse_url url = Some path →
  match get_repo github path with
  | Failed e =>
      extract github url
      = (Failed (PlainException
           ("Failed to collect data from " +:+ url +:+ ": " +:+ cexn_str e)), [])
  | Done repo =>
      ∃ d warnings,
        extract github url = (Done d, warnings)
        ∧ dom d = {[ "basic_info"; "commits"; "pull_requests"; "contributors";
                     "branches"; "issues"; "repository_stats" ]}
        ∧ d !! "basic_info" = Some (JDict (_get_basic_info repo))
        ∧ d !! "commits" = Some (JList (_get_commit_data repo 500).1)
        ∧ d !! "pull_requests" = Some (JList (_get_pr_data repo 200).1)
        ∧ d !! "issues" = Some (JList (_get_issue_data repo 100).1)
        ∧ (length (_get_commit_data repo 500).1 ≤ 500)%nat
        ∧ (length warnings ≤ 6)%nat
  end.
Proof.
  intros Hparse. unfold extract_repo_data. cbv zeta.
  rewrite Hparse, (parse_repo_url_nonempty url path Hparse). simpl.
  destruct (get_repo github path) as [repo|e]; [|done].
  pose proof (guarded_loop_warnings "Warning: Could not fetch all commits: "
                commit_record (slice 500 (repo_get_commits repo))) as H1.
  pose proof (guarded_loop_warnings "Warning: Could not fetch all PRs: "
                pull_record (slice 200 (repo_get_pulls repo))) as H2.
  pose proof (guarded_loop_warnings "Warning: Could not fetch contributors: "
                contributor_record (repo_get_contributors repo)) as H3.
  pose proof (guarded_loop_warnings "Warning: Could not fetch branches: "
                branch_record (repo_get_branches repo)) as H4.
  pose proof (guarded_loop_warnings "Warning: Could not fetch issues: "
                issue_record (slice 100 (repo_get_issues repo))) as H5.
  assert (length (_get_repo_stats repo).2 ≤ 1)%nat as H6.
  { unfold _get_repo_stats. destruct (repo_get_languages repo); simpl; lia. }
  destruct (commit_data_prefix repo 500) as [_ Hcommits].
  fold (_get_commit_data repo 500) in H1.
  fold (_get_pr_data repo 200) in H2.
  fold (_get_contributor_data repo) in H3.
  fold (_get_branch_data repo) in H4.
  fold (_get_issue_data repo 100) in H5.
  destruct (_get_commit_data repo 500) as [commits w1],
    (_get_pr_data repo 200) as [pulls w2],
    (_get_contributor_data repo) as [contributors w3],
    (_get_branch_data repo) as [branches w4],
    (_get_issue_data repo 100) as [issues w5],
    (_get_repo_stats repo) as [stats w6].
  simpl in *. eexists _, _. split; [reflexivity|].
  split.
  { unfold jdict. cbn [foldl fst snd].
    rewrite !dom_insert_L, dom_empty_L. set_solver. }
  repeat (split; [reflexivity || lia|]).
  rewrite !length_app. lia.
Qed.

End ExtractFacts.

(** ** The collector on concrete data *)

Module CollectorSample.

(** A [urlparse] that knows three URLs. *)
Definition urlparse (url : string) : attempt (string * string) :=
  if String.eqb url "https://github.com/octocat/Hello-World/tree/main"
  then Done ("github.com", "/octocat/Hello-World/tree/main")
  else if String.eqb url "https://notgithub.com.example.org//a/b/"
  then Done ("notgithub.com.example.org", "//a/b/")
  else if String.eqb url "https://gitlab.com/octocat/Hello-World"
  then Done ("gitlab.com", "/octocat/Hello-World")
  else Failed (ValueError "Invalid IPv6 URL").

Definition authored (sha name : string) : api_commit :=
  {| commit_sha := JStr sha;
     commit_git_author := Some {| ga_name := JStr name; ga_date := Some "2024-01-01T00:00:00" |};
     commit_author_login := None;
     commit_message := JStr "update";
     commit_files := FilesNone;
     commit_stats := None |}.

Definition orphan (sha : string) : api_commit :=
  {| commit_sha := JStr sha;
     commit_git_author := None;
     commit_author_login := None;
     commit_message := JStr "update";
     commit_files := FilesNone;
     commit_stats := None |}.

Definition pull (n : Z) (reviews : listing jval) : api_pull :=
  {| pull_number := JInt n;
     pull_title := JStr "change";
     pull_state := JStr "closed";
     pull_created_at := None;
     pull_closed_at := None;
     pull_merged_at := None;
     pull_user_login := None;
     pull_get_reviews := reviews;
     pull_comments := JInt 0;
     pull_additions := JInt 1;
     pull_deletions := JInt 1;
     pull_changed_files := JInt 1 |}.

Definition hello_world : api_repo :=
  {| repo_name := JStr "Hello-World";
     repo_full_name := JStr "octocat/Hello-World";
     repo_description := JNone;
     repo_created_at := Some "2011-01-26T19:01:12";
     repo_updated_at := None;
     repo_language := JNone;
     repo_size := JInt 1;
     repo_stargazers_count := JInt 2;
     repo_forks_count := JInt 3;
     repo_open_issues_count := JInt 4;
     repo_get_commits :=
       {| items := [authored "a1" "Ann"; orphan "b2"; authored "c3" "Cy"];
          failure := None |};
     repo_get_pulls :=
       {| items := [pull 1 {| items := [JStr "ok"]; failure := None |};
                    pull 2 {| items := []; failure := Some (ClientError "rate limit") |}];
          failure := None |};
     repo_get_contributors := {| items := []; failure := None |};
     repo_get_branches := {| items := []; failure := Some (ClientError "timeout") |};
     repo_get_issues := {| items := []; failure := None |};
     repo_get_languages := Failed (ClientError "timeout");
     repo_has_wiki := JBool true;
     repo_has_pages := JBool false;
     repo_has_projects := JBool true;
     repo_archived := JBool false;
     repo_disabled := JBool false;
     repo_default_branch := JStr "master" |}.

Definition get_repo (_ : github_client) (repo_path : string) : attempt api_repo :=
  if String.eqb repo_path "octocat/Hello-World" then Done hello_world
  else Failed (ClientError "404").

End CollectorSample.


Lemma parse_repo_url_owner_repo_witness :
  _parse_repo_url CollectorSample.urlparse
    "https://github.com/octocat/Hello-World/tree/main"
  = Some "octocat/Hello-World".
Proof.
  apply (parse_repo_url_owner_repo CollectorSample.urlparse
           "https://github.com/octocat/Hello-World/tree/main"
           "github.com" "/octocat/Hello-World/tree/main"
           EmptyString EmptyString "/" "octocat" "Hello-World" "/tree/main");
    try reflexivity; try discriminate.
  right. by eexists.
Defined.

Lemma commit_collection_stops_witness :
  length (_get_commit_data CollectorSample.hello_world 500).1 = 1
  ∧ (_get_commit_data CollectorSample.hello_world 500).2
    = ["Warning: Could not fetch all commits: 'NoneType' object has no attribute 'date'"].
Proof.
  apply (commit_collection_stops CollectorSample.hello_world 500 1
           (CollectorSample.orphan "b2")); [reflexivity | | lia].
  intros j c' Hj Hc'. destruct j as [|j]; [|lia].
  injection Hc' as <-. split; [by eexists | done].
Defined.

Lemma pr_data_stops_at_failed_reviews_witness :
  length (_get_pr_data CollectorSample.hello_world 200).1 = 1
  ∧ (_get_pr_data CollectorSample.hello_world 200).2
    = ["Warning: Could not fetch all PRs: rate limit"].
Proof.
  apply (pr_data_stops_at_failed_reviews CollectorSample.hello_world 200 1
           (CollectorSample.pull 2
              {| items := []; failure := Some (ClientError "rate limit") |})
           (ClientError "rate limit")); [reflexivity | reflexivity | | lia].
  intros j pr' Hj Hpr'. destruct j as [|j]; [|lia].
  by injection Hpr' as <-.
Defined.

Lemma extract_outcome_witness :
  ∃ d warnings,
    extract_repo_data CollectorSample.urlparse CollectorSample.get_repo
      (Github None) "https://github.com/octocat/Hello-World/tree/main"
    = (Done d, warnings)
    ∧ dom d = {[ "basic_info"; "commits"; "pull_requests"; "contributors";
                 "branches"; "issues"; "repository_stats" ]}
    ∧ d !! "basic_info" = Some (JDict (_get_basic_info CollectorSample.hello_world))
    ∧ d !! "commits"
      = Some (JList (_get_commit_data CollectorSample.hello_world 500).1)
    ∧ d !! "pull_requests"
      = Some (JList (_get_pr_data CollectorSample.hello_world 200).1)
    ∧ d !! "issues"
      = Some (JList (_get_issue_data CollectorSample.hello_world 100).1)
    ∧ (length (_get_commit_data CollectorSample.hello_world 500).1 ≤ 500)%nat
    ∧ (length warnings ≤ 6)%nat.
Proof.
  exact (extract_outcome CollectorSample.urlparse CollectorSample.get_repo
           (Github None) "https://github.com/octocat/Hello-World/tree/main"
           "octocat/Hello-World" eq_refl).
Defined.

(** * The command line's [info] and [_print_summary], and the batch example *)

From stdpp Require Import pretty.

(** [s * n]. *)
Fixpoint str_repeat (s : string) (n : nat) : string :=
  match n with
  | O => EmptyString
  | S n' => s +:+ str_repeat s n'
  end.

(** [sep.join(items)] for a list of values: every item must be a [str]. *)
Fixpoint join_items (sep : string) (l : list pyval) : outcome string :=
  match l with
  | [] => Return EmptyString
  | [PStr s] => Return s
  | PStr s :: l' =>
      match join_items sep l' with
      | Return r => Return (s +:+ sep +:+ r)
      | Raise e => Raise e
      end
  | _ :: _ => Raise (TypeError "sequence item: expected str instance")
  end.

(** [format(v, ".3f")], given the rendering of a float: a [bool] is
    formatted as the number it is, a [str] raises [ValueError], and
    anything else has no such format. *)
Definition format_fixed (float_3f : float -> string) (v : pyval) : outcome string :=
  match v with
  | PFloat f => Return (float_3f f)
  | PBool b => Return (float_3f (if b then 1%float else 0%float))
  | PStr _ => Raise (OtherError "Unknown format code 'f' for object of type 'str'")
  | _ => Raise (TypeError "unsupported format string passed to __format__")
  end.

(** [v == "HEALTHY"]. *)
Definition equals_healthy (v : pyval) : bool :=
  match v with
  | PStr s => String.eqb s "HEALTHY"
  | _ => false
  end.

(** The lines written by a sequence of [click.echo] calls whose arguments
    are evaluated in turn: the first one that raises ends the sequence. *)
Fixpoint echo_each (steps : list (outcome string)) : list string * option exn :=
  match steps with
  | [] => ([], None)
  | Return line :: steps' =>
      let (lines, e) := echo_each steps' in (line :: lines, e)
  | Raise e :: _ => ([], Some e)
  end.

(** Two blocks of statements in sequence. *)
Definition and_then (a b : list string * option exn) : list string * option exn :=
  match a with
  | (lines, None) => ((lines ++ b.1)%list, b.2)
  | (lines, Some e) => (lines, Some e)
  end.

Section Commands.

Variable World : Type.
Variable import_demo : World -> outcome unit.
Variable engine_analyze : World -> string -> float -> outcome pyval.

(** [str(v)] for the values that are not strings, the keys of a
    dictionary in the order they were inserted (which a finite map does
    not record), and [f"{x:.3f}"] for a float. *)
Variable format_value : pyval -> string.
Variable dict_order : gmap string pyval -> list string.
Variable float_3f : float -> string.

(** [f"{v}"]. *)
Definition py_format (v : pyval) : string :=
  match v with
  | PStr s => s
  | _ => format_value v
  end.

(** The items a [for] loop or [join] sees in [v]. *)
Definition iterate (v : pyval) : outcome (list pyval) :=
  match v with
  | PList l => Return l
  | PStr s => Return ((fun c => PStr (String c EmptyString)) <$> String.list_ascii_of_string s)
  | PDict d => Return (PStr <$> dict_order d)
  | _ => Raise (TypeError "object is not iterable")
  end.

Definition str_join (sep : string) (v : pyval) : outcome string :=
  match iterate v with
  | Return l => join_items sep l
  | Raise e => Raise e
  end.

(** *** [cli/analyze.py]: the [info] command

    The lines echoed, and the exception that ends the command if one is
    raised (the command has no [try]). *)
Definition info (w : World) : list string * option exn :=
  match RepositoryAnalyzer World import_demo w with
  | Raise e => ([], Some e)
  | Return analyzer =>
  match get_engine_info analyzer with
  | (Raise e, _) => ([], Some e)
  | (Return engine_info, _) =>
  let out0 := ["Repository Intelligence System"; str_repeat "=" 30] in
  match subscript (PDict engine_info) "engine" with
  | Raise e => (out0, Some e)
  | Return engine =>
  let out1 := (out0 ++ ["Engine: " +:+ py_format engine])%list in
  match subscript (PDict engine_info) "capabilities" with
  | Raise e => (out1, Some e)
  | Return capabilities =>
  match str_join ", " capabilities with
  | Raise e => (out1, Some e)
  | Return joined =>
  let out2 := (out1 ++ ["Capabilities: " +:+ joined])%list in
  let out3 :=
    match engine_info !! "version" with
    | Some version => (out2 ++ ["Version: " +:+ py_format version])%list
    | None => out2
    end in
  let out4 :=
    match engine_info !! "message" with
    | Some message => (out3 ++ [newline +:+ "Note: " +:+ py_format message])%list
    | None => out3
    end in
  (out4, None)
  end end end end end.

(** *** [cli/analyze.py]: [_print_summary]

    The lines written to the output, and the exception that interrupts
    them if one is raised. *)

(** [f"{label}{metrics.get(key, 'N/A'):.3f}"]. *)
Definition metric_line (label : string) (metrics : pyval) (key : string)
  : outcome string :=
  match dict_get metrics key (PStr "N/A") with
  | Raise e => Raise e
  | Return v =>
      match format_fixed float_3f v with
      | Raise e => Raise e
      | Return shown => Return (label +:+ shown)
      end
  end.

(** [f"{i}. {rec}"] for [i, rec] in [enumerate(items, i)]. *)
Fixpoint numbered (i : nat) (items : list pyval) : list string :=
  match items with
  | [] => []
  | rec :: items' => (pretty i +:+ ". " +:+ py_format rec) :: numbered (S i) items'
  end.

Definition _print_summary (result : gmap string pyval) : list string * option exn :=
  let get (key : string) := default (PStr "N/A") (result !! key) in
  let basic :=
    echo_each
      [Return (str_repeat "=" 50);
       Return "REPOSITORY INTELLIGENCE ANALYSIS";
       Return (str_repeat "=" 50);
       Return ("Repository: " +:+ py_format (get "repository"));
       Return ("Classification: " +:+ py_format (get "classification"));
       match format_fixed float_3f (get "M_score") with
       | Return shown => Return ("Overall Score (M): " +:+ shown)
       | Raise e => Raise e
       end;
       Return ("Threshold: " +:+ py_format (get "threshold"))] in
  let breakdown :=
    match result !! "metrics" with
    | None => ([], None)
    | Some metrics =>
        echo_each
          [Return (newline +:+ "METRICS BREAKDOWN:");
           Return (str_repeat "-" 20);
           metric_line "H (Commit Entropy): " metrics "H";
           metric_line "V (Velocity):       " metrics "V";
           metric_line "C (Collaboration):  " metrics "C";
           metric_line "A (Anti-patterns):  " metrics "A"]
    end in
  let recommendations :=
    if truthy (default PNone (result !! "recommendations")) then
      let heading := [newline +:+ "RECOMMENDATIONS:"; str_repeat "-" 15] in
      match iterate (default PNone (result !! "recommendations")) with
      | Raise e => (heading, Some e)
      | Return items => ((heading ++ numbered 1 items)%list, None)
      end
    else ([], None) in
  let warning :=
    if truthy (default PNone (result !! "demo_mode")) then
      ([newline +:+ str_repeat "!" 50;
        "DEMO MODE - Install repo-intelligence-core for real analysis";
        str_repeat "!" 50], None)
    else ([], None) in
  and_then basic (and_then breakdown (and_then recommendations warning)).

(** *** [examples/basic_usage.py]: [example_batch_analysis]

    The loop over the repositories, for any list of them; each URL comes
    with the state of the world at the time of its analysis. One pass
    gives the lines printed, the entry appended to [results] and the
    analyzer as the call left it. *)
Definition batch_entry (url : string) (score classification : pyval)
  : gmap string pyval :=
  dict_display
    [("url", PStr url); ("score", score); ("classification", classification)].

Definition batch_failed (repo_url : string) (e : exn)
  : list string * gmap string pyval :=
  (["Analyzing " +:+ repo_url +:+ "..."; "  Error: " +:+ exn_str e],
   batch_entry repo_url PNone (PStr "ERROR")).

Definition batch_step (w : World) (repo_url : string) (self : gmap string pyval)
  : list string * gmap string pyval * gmap string pyval :=
  match analyze_repository World engine_analyze w repo_url 0.7%float self with
  | (Raise e, self') => (batch_failed repo_url e, self')
  | (Return result, self') =>
      match subscript (PDict result) "M_score" with
      | Raise e => (batch_failed repo_url e, self')
      | Return score =>
          match subscript (PDict result) "classification" with
          | Raise e => (batch_failed repo_url e, self')
          | Return classification =>
              (["Analyzing " +:+ repo_url +:+ "..."],
               batch_entry repo_url score classification, self')
          end
      end
  end.

Fixpoint batch_loop (calls : list (World * string)) (self : gmap string pyval)
  : list string * list (gmap string pyval) :=
  match calls with
  | [] => ([], [])
  | (w, repo_url) :: calls' =>
      let '(lines, entry, self') := batch_step w repo_url self in
      let (lines', results) := batch_loop calls' self' in
      ((lines ++ lines')%list, entry :: results)
  end.

(** One line of the summary. *)
Definition summary_line (result : gmap string pyval) : outcome string :=
  match subscript (PDict result) "classification" with
  | Raise e => Raise e
  | Return classification =>
  let status := if equals_healthy classification then "✅" else "⚠️" in
  match subscript (PDict result) "score" with
  | Raise e => Raise e
  | Return score =>
  match (if truthy score then format_fixed float_3f score else Return "N/A") with
  | Raise e => Raise e
  | Return shown =>
  match subscript (PDict result) "url" with
  | Raise e => Raise e
  | Return url => Return (status +:+ " " +:+ shown +:+ " - " +:+ py_format url)
  end end end end.

Fixpoint summary_lines (results : list (gmap string pyval))
  : list string * option exn :=
  match results with
  | [] => ([], None)
  | result :: results' =>
      match summary_line result with
      | Raise e => ([], Some e)
      | Return line =>
          let (lines, e) := summary_lines results' in (line :: lines, e)
      end
  end.

(** The whole example over [calls]: the lines printed and the exception
    that ends it, if any. *)
Definition batch_analysis (w0 : World) (calls : list (World * string))
  : list string * option exn :=
  let header :=
    [newline +:+ str_repeat "=" 50; "BATCH ANALYSIS"; str_repeat "=" 50] in
  match RepositoryAnalyzer World import_demo w0 with
  | Raise e => (header, Some e)
  | Return analyzer =>
      let (lines, results) := batch_loop calls analyzer in
      let (summary, e) := summary_lines results in
      ((header ++ lines
        ++ [newline +:+ "BATCH ANALYSIS SUMMARY:"; str_repeat "-" 30]
        ++ summary)%list, e)
  end.

Definition example_batch_analysis (w0 w1 w2 w3 w4 : World) : list string * option exn :=
  batch_analysis w0
    [(w1, "https://github.com/microsoft/vscode");
     (w2, "https://github.com/facebook/react");
     (w3, "https://github.com/google/go");
     (w4, "https://github.com/rust-lang/rust")].

End Commands.

Section CommandFacts.

Variable World : Type.
Variable import_demo : World -> outcome unit.
Variable engine_analyze : World -> string -> float -> outcome pyval.
Variable format_value : pyval -> string.
Variable dict_order : gmap string pyval -> list string.
Variable float_3f : float -> string.

#[local] Abbreviation run_info := (info World import_demo format_value dict_order).
#[local] Abbreviation run_loop := (batch_loop World engine_analyze).
#[local] Abbreviation run_batch :=
  (batch_analysis World import_demo engine_analyze format_value float_3f).
#[local] Abbreviation analyze_at := (analyze_repository World engine_analyze).
#[local] Abbreviation summary := (_print_summary format_value dict_order float_3f).

(** Unlike [analyze], the [info] command never reads
    [proprietary_available]: whenever the constructor returns it echoes
    five lines and ends normally, the last line being the version when the
    engine package is installed and the install note when it is not. An
    exception of the constructor ends it before anything is echoed. *)
Theorem info_outcome (w : World) :
  match import_demo w with
  | Return _ =>
      run_info w
      = (["Repository Intelligence System";
          "==============================";
          "Engine: Proprietary π₁ Mathematical Engine";
          "Capabilities: Full repository analysis, π₁ formula, Custom thresholds";
          "Version: 1.0.0"], None)
  | Raise (ImportError _) =>
      run_info w
      = (["Repository Intelligence System";
          "==============================";
          "Engine: Demo Mode";
          "Capabilities: Basic structure analysis, Demo metrics";
          newline +:+ "Note: Install repo-intelligence-core for full capabilities"],
         None)
  | Raise e => run_info w = ([], Some e)
  end.
Proof.
  unfold info, RepositoryAnalyzer, __init__, _check_demo_engine.
  unfold bind, try_except, lift, ret, setattr.
  destruct (import_demo w) as [[]|e]; simpl; [reflexivity|].
  destruct e; reflexivity.
Qed.

Lemma analyze_result_entries (w : World) (u : string) (t : float)
  (self res : gmap string pyval) :
  result_of (analyze_at w u t) self = Return res →
  is_Some (res !! "M_score") ∧ is_Some (res !! "classification").
Proof.
  intros Hres. apply analyze_repository_paths in Hres.
  destruct (self !! "demo_available") as [v|]; [|done].
  destruct (truthy v).
  - destruct Hres as (r & mt & m & ms & _ & _ & _ & _ & ->).
    destruct (engine_result_lookup u t mt m ms
                (default (PList []) (r !! "recommendations")))
      as (_ & -> & -> & _). by split; eexists.
  - subst res. destruct (demo_result_lookup u t) as (_ & -> & -> & _).
    by split; eexists.
Qed.

Lemma batch_entry_lookup (url : string) (score classification : pyval) :
  batch_entry url score classification !! "url" = Some (PStr url)
  ∧ batch_entry url score classification !! "score" = Some score
  ∧ batch_entry url score classification !! "classification" = Some classification.
Proof. by repeat split. Qed.

Lemma batch_step_spec (w : World) (u : string) (self : gmap string pyval) :
  match result_of (analyze_at w u 0.7%float) self with
  | Return res =>
      ∃ m c,
        res !! "M_score" = Some m
        ∧ res !! "classification" = Some c
        ∧ batch_step World engine_analyze w u self
          = (["Analyzing " +:+ u +:+ "..."], batch_entry u m c, self)
  | Raise e => batch_step World engine_analyze w u self = (batch_failed u e, self)
  end.
Proof.
  pose proof (preserves_self_analyze_repository World engine_analyze w u 0.7%float self)
    as Hself.
  pose proof (analyze_result_entries w u 0.7%float self) as Hkeys.
  unfold batch_step, result_of, self_after in *.
  destruct (analyze_at w u 0.7%float self) as [[res|e] self'];
    cbn [fst snd] in *; subst self'; [|done].
  destruct (Hkeys res eq_refl) as [[m Hm] [c Hc]].
  exists m, c. unfold subscript. by rewrite Hm, Hc.
Qed.

(** The batch loop gives one entry per repository, in order, whatever
    happens to the analyses: an analysis that raises does not stop the
    batch, it leaves an entry with score [None] and classification
    "ERROR", and an analysis that returns leaves its [M_score] and its
    classification. Every analysis runs on the analyzer as it was
    built. *)
Theorem batch_one_entry_per_repository (calls : list (World * string))
  (self : gmap string pyval) :
  Forall2 (fun call entry =>
      entry !! "url" = Some (PStr call.2)
      ∧ match result_of (analyze_at call.1 call.2 0.7%float) self with
        | Return res =>
            entry !! "score" = res !! "M_score"
            ∧ entry !! "classification" = res !! "classification"
        | Raise _ =>
            entry !! "score" = Some PNone
            ∧ entry !! "classification" = Some (PStr "ERROR")
        end)
    calls (run_loop calls self).2.
Proof.
  induction calls as [|[w u] calls IH]; [constructor|].
  cbn [batch_loop]. pose proof (batch_step_spec w u self) as Hstep.
  destruct (result_of (analyze_at w u 0.7%float) self) as [res|e] eqn:Hres.
  - destruct Hstep as (m & c & Hm & Hc & ->).
    destruct (run_loop calls self) as [lines results]. cbn [fst snd] in *.
    constructor; [|done]. cbn [fst snd]. rewrite Hres, Hm, Hc.
    apply batch_entry_lookup.
  - rewrite Hstep. unfold batch_failed.
    destruct (run_loop calls self) as [lines results]. cbn [fst snd] in *.
    constructor; [|done]. cbn [fst snd]. rewrite Hres.
    apply batch_entry_lookup.
Qed.

Lemma batch_loop_demo (calls : list (World * string)) (self : gmap string pyval)
  (v : pyval) :
  self !! "demo_available" = Some v → truthy v = false →
  run_loop calls self
  = ((fun call => "Analyzing " +:+ call.2 +:+ "...") <$> calls,
     (fun call => batch_entry call.2 (PFloat 0.75%float) (PStr "DEMO_HEALTHY"))
     <$> calls).
Proof.
  intros Hv Hflag. induction calls as [|[w u] calls IH]; [done|].
  cbn [batch_loop]. pose proof (batch_step_spec w u self) as Hstep.
  rewrite (analyze_repository_demo World engine_analyze w u 0.7%float self v
             Hv Hflag) in Hstep.
  destruct Hstep as (m & c & Hm & Hc & ->).
  destruct (demo_result_lookup u 0.7%float) as (_ & Hcls & Hscore & _).
  rewrite Hscore in Hm. rewrite Hcls in Hc.
  injection Hm as <-. injection Hc as <-.
  by rewrite IH.
Qed.

Lemma summary_lines_demo (calls : list (World * string)) :
  summary_lines format_value float_3f
    ((fun call : World * string =>
        batch_entry call.2 (PFloat 0.75%float) (PStr "DEMO_HEALTHY")) <$> calls)
  = ((fun call : World * string =>
        "⚠️ " +:+ float_3f 0.75%float +:+ " - " +:+ call.2) <$> calls, None).
Proof.
  induction calls as [|[w u] calls IH]; [done|].
  rewrite !fmap_cons. cbn [summary_lines]. rewrite IH. reflexivity.
Qed.

(** Without the engine package the batch example rates no repository as
    healthy: it ends normally, and after the header and one "Analyzing"
    line per repository its summary shows every repository with the
    warning sign and the same score, the rendering of 0.75. *)
Theorem batch_demo_mode_all_flagged (w0 : World) (calls : list (World * string))
  (module : string) :
  import_demo w0 = Raise (ImportError module) →
  run_batch w0 calls
  = (([newline +:+ str_repeat "=" 50; "BATCH ANALYSIS"; str_repeat "=" 50]
      ++ ((fun call => "Analyzing " +:+ call.2 +:+ "...") <$> calls)
      ++ [newline +:+ "BATCH ANALYSIS SUMMARY:"; str_repeat "-" 30]
      ++ ((fun call => "⚠️ " +:+ float_3f 0.75%float +:+ " - " +:+ call.2)
          <$> calls))%list,
     None).
Proof.
  intros Himport. unfold batch_analysis.
  assert (RepositoryAnalyzer World import_demo w0
          = Return (<["demo_available" := PBool false]> ∅)) as ->.
  { unfold RepositoryAnalyzer, __init__, _check_demo_engine.
    unfold bind, try_except, lift, ret, setattr. by rewrite Himport. }
  rewrite (batch_loop_demo calls _ (PBool false)) by done.
  cbv beta iota zeta. by rewrite summary_lines_demo.
Qed.

(** The "N/A" placeholders of [_print_summary] cannot be printed where a
    number is formatted: for a result without [M_score] the summary stops
    with a [ValueError] after the first five lines, and for a result
    whose metrics lack [H] it stops after the heading of the breakdown. *)
Theorem print_summary_missing_number (result : gmap string pyval) :
  (result !! "M_score" = None →
   ∃ lines,
     summary result
     = (lines, Some (OtherError "Unknown format code 'f' for object of type 'str'"))
     ∧ length lines = 5)
  ∧ (∀ m md,
       result !! "M_score" = Some (PFloat m) →
       result !! "metrics" = Some (PDict md) →
       md !! "H" = None →
       ∃ lines,
         summary result
         = (lines, Some (OtherError "Unknown format code 'f' for object of type 'str'"))
         ∧ length lines = 9).
Proof.
  split.
  - intros Hscore. unfold _print_summary. rewrite Hscore. simpl. by eexists.
  - intros m md Hscore Hmetrics Hh. unfold _print_summary, metric_line.
    rewrite Hscore, Hmetrics. simpl. rewrite Hh. simpl. by eexists.
Qed.

(** The summary of a result of the fallback path, for every URL and
    threshold: nineteen lines, with the classification "DEMO_HEALTHY",
    the four fixed metrics, the install hint as recommendation 1 and the
    demo-mode banner at the end; nothing is raised. *)
Theorem print_summary_demo_result (w : World) (u : string) (t : float)
  (self res : gmap string pyval) (v : pyval) :
  self !! "demo_available" = Some v → truthy v = false →
  result_of (analyze_at w u t) self = Return res →
  summary res
  = ([str_repeat "=" 50;
      "REPOSITORY INTELLIGENCE ANALYSIS";
      str_repeat "=" 50;
      "Repository: " +:+ u;
      "Classification: DEMO_HEALTHY";
      "Overall Score (M): " +:+ float_3f 0.75%float;
      "Threshold: " +:+ format_value (PFloat t);
      newline +:+ "METRICS BREAKDOWN:";
      str_repeat "-" 20;
      "H (Commit Entropy): " +:+ float_3f 0.8%float;
      "V (Velocity):       " +:+ float_3f 0.7%float;
      "C (Collaboration):  " +:+ float_3f 0.6%float;
      "A (Anti-patterns):  " +:+ float_3f 0.2%float;
      newline +:+ "RECOMMENDATIONS:";
      str_repeat "-" 15;
      "1. Install repo-intelligence-core for full analysis";
      newline +:+ str_repeat "!" 50;
      "DEMO MODE - Install repo-intelligence-core for real analysis";
      str_repeat "!" 50], None).
Proof.
  intros Hv Hflag Hres.
  rewrite (analyze_repository_demo World engine_analyze w u t self v Hv Hflag)
    in Hres.
  injection Hres as <-. reflexivity.
Qed.

End CommandFacts.

(** ** The commands on concrete runs *)

Module CommandSample.

Definition float_3f (f : float) : string :=
  if PrimFloat.eqb f 0.75%float then "0.750"
  else if PrimFloat.eqb f 0.8%float then "0.800"
  else if PrimFloat.eqb f 0.7%float then "0.700"
  else if PrimFloat.eqb f 0.6%float then "0.600"
  else if PrimFloat.eqb f 0.2%float then "0.200"
  else "?".

Definition dict_order (_ : gmap string pyval) : list string := [].

End CommandSample.

Lemma batch_demo_mode_all_flagged_witness :
  example_batch_analysis bool Sample.import_demo Sample.engine_analyze
    Sample.format_value CommandSample.float_3f false false false false false
  = ([newline +:+ str_repeat "=" 50;
      "BATCH ANALYSIS";
      str_repeat "=" 50;
      "Analyzing https://github.com/microsoft/vscode...";
      "Analyzing https://github.com/facebook/react...";
      "Analyzing https://github.com/google/go...";
      "Analyzing https://github.com/rust-lang/rust...";
      newline +:+ "BATCH ANALYSIS SUMMARY:";
      str_repeat "-" 30;
      "⚠️ 0.750 - https://github.com/microsoft/vscode";
      "⚠️ 0.750 - https://github.com/facebook/react";
      "⚠️ 0.750 - https://github.com/google/go";
      "⚠️ 0.750 - https://github.com/rust-lang/rust"], None).
Proof.
  exact (batch_demo_mode_all_flagged bool Sample.import_demo Sample.engine_analyze
           Sample.format_value CommandSample.float_3f false
           [(false, "https://github.com/microsoft/vscode");
            (false, "https://github.com/facebook/react");
            (false, "https://github.com/google/go");
            (false, "https://github.com/rust-lang/rust")]
           "repo_intelligence_demo" eq_refl).
Defined.

Lemma print_summary_demo_result_witness :
  (_print_summary Sample.format_value CommandSample.dict_order CommandSample.float_3f
     (demo_result Sample.vscode 0.7%float)).2 = None
  ∧ length (_print_summary Sample.format_value CommandSample.dict_order
              CommandSample.float_3f (demo_result Sample.vscode 0.7%float)).1 = 19.
Proof.
  rewrite (print_summary_demo_result bool Sample.engine_analyze Sample.format_value
             CommandSample.dict_order CommandSample.float_3f false Sample.vscode
             0.7%float Sample.bare_analyzer (demo_result Sample.vscode 0.7%float)
             (PBool false) eq_refl eq_refl eq_refl).
  split; reflexivity.
Defined.
